(** * gold-live: the price-aggregation cycle of [GoldService]

    A shallow embedding of [gold.service.ts] and [telegram.service.ts]:
    the thousands formatter, the three source fetchers and the scheduled
    cycle that reports to Telegram, with the properties of the written
    specification stated and settled against them. *)

From Stdlib Require Import ZArith NArith Ascii String List Bool Lia.
From Stdlib Require Import DecimalString.
From stdpp Require Import base option strings list gmap.

Local Open Scope string_scope.
Local Open Scope nat_scope.

(* stdpp keeps [simpl] away from string concatenation; the proofs below
   compute with literals. *)
#[local] Arguments String.append !_ _ / : simpl nomatch.

(** ** JavaScript strings

    A string is its sequence of code units.  Every literal the service
    searches for (['DOJI'], ['SJC'], ['24k'], ['9999']) and every class the
    formatter's pattern uses ([\d], [\w]) is ASCII, so the text is kept as
    the byte string of its UTF-8 form: a non-ASCII character is a run of
    bytes above 127, none of which is a digit or a word character. *)

Module Js.

Definition LF : string := String "010"%char EmptyString.

(** [\d] without the unicode flag: [0-9]. *)
Definition is_digit (c : ascii) : bool :=
  let n := N_of_ascii c in ((48 <=? n) && (n <=? 57))%N.

(** [\w] without the unicode flag: [A-Za-z0-9_]. *)
Definition is_word (c : ascii) : bool :=
  let n := N_of_ascii c in
  (((65 <=? n) && (n <=? 90)) || ((97 <=? n) && (n <=? 122))
   || ((48 <=? n) && (n <=? 57)) || (n =? 95))%N.

(** [String.prototype.startsWith]. *)
Fixpoint startsWith (needle s : string) : bool :=
  match needle, s with
  | EmptyString, _ => true
  | String a needle', String b s' => Ascii.eqb a b && startsWith needle' s'
  | String _ _, EmptyString => false
  end.

(** [s.includes(needle)]: [needle] occurs somewhere in [s]. *)
Fixpoint includes (s needle : string) : bool :=
  startsWith needle s ||
  match s with
  | EmptyString => false
  | String _ s' => includes s' needle
  end.

(** [Array.prototype.join]. *)
Fixpoint join (sep : string) (parts : list string) : string :=
  match parts with
  | [] => ""
  | [p] => p
  | p :: rest => p +:+ sep +:+ join sep rest
  end.

End Js.

(** ** The pattern of [formatNumber]

    [/\B(?=(\d{3})+(?!\d))/g] matches the empty string at every position
    that is not a word boundary and is followed by one or more groups of
    three digits after which no digit comes. *)

Module Pattern.

(** The character on one side of a position; [None] at either end of the
    input, which counts as a non-word character. *)
Definition word_side (c : option ascii) : bool :=
  match c with Some a => Js.is_word a | None => false end.

(** [\B]: both sides are word characters, or neither is. *)
Definition not_word_boundary (prev next : option ascii) : bool :=
  Bool.eqb (word_side prev) (word_side next).

Definition head (s : string) : option ascii :=
  match s with EmptyString => None | String c _ => Some c end.

(** [(?!\d)] at the start of [s]. *)
Definition no_digit_ahead (s : string) : bool :=
  match s with EmptyString => true | String c _ => negb (Js.is_digit c) end.

(** [(\d{3})+(?!\d)] at the start of [s]: one group of three digits, then
    either the negative lookahead succeeds or further groups follow. *)
Fixpoint groups_of_three (s : string) : bool :=
  match s with
  | String a (String b (String c rest)) =>
      Js.is_digit a && Js.is_digit b && Js.is_digit c
      && (no_digit_ahead rest || groups_of_three rest)
  | _ => false
  end.

(** The whole pattern at the position between [prev] and the start of [s]. *)
Definition matches_at (prev : option ascii) (s : string) : bool :=
  not_word_boundary prev (head s) && groups_of_three s.

(** [str.replace(pattern, ',')] with the global flag: the pattern is tried
    at every position from 0 to the length of the input (an empty match
    advances by one code unit), and [','] is inserted where it matches. *)
Fixpoint replace_from (prev : option ascii) (s : string) : string :=
  let here := if matches_at prev s then "," else "" in
  match s with
  | EmptyString => here
  | String c rest => here +:+ String c (replace_from (Some c) rest)
  end.

Definition replace (s : string) : string := replace_from None s.

End Pattern.

(** ** Numbers

    A JavaScript number is a double; the service never computes with one,
    it only renders it ([Number.prototype.toString]).  The number type and
    its rendering are therefore an interface, and every statement below
    holds for any implementation of it. *)

Class NumberRepr := {
  number : Type;
  Number_toString : number → string;
}.

(** Integers with their decimal rendering implement the interface (the
    rendering of every integral double below 10^21). *)
Definition Z_toString (z : Z) : string := NilZero.string_of_int (Z.to_int z).

Definition integer_numbers : NumberRepr :=
  {| number := Z; Number_toString := Z_toString |}.

(** *** [Number::toString], concretely

    The language specification defines the rendering of a finite number
    other than zero from three integers [s], [k] and [n]: the number is
    [s × 10^(n-k)], [s] has [k] digits, and [k] is as small as the double
    allows.  A number is kept as what that definition starts from: its
    sign, the digits of [s], and [n]. *)

Inductive JsNumber :=
| NaN
| Infinite (negative : bool)
| Zero (negative : bool)
| Finite (negative : bool) (digits : string) (n : Z).

Fixpoint zeros (count : nat) : string :=
  match count with
  | O => EmptyString
  | S count' => String "0"%char (zeros count')
  end.

Definition sign_text (negative : bool) : string :=
  if negative then "-" else "".

(** Steps 6 to 10 of [Number::toString] for radix 10. *)
Definition unsigned_toString (digits : string) (n : Z) : string :=
  let k := Z.of_nat (String.length digits) in
  if ((k <=? n) && (n <=? 21))%Z then
    digits +:+ zeros (Z.to_nat (n - k))
  else if ((0 <? n) && (n <=? 21))%Z then
    substring 0 (Z.to_nat n) digits +:+ "."
    +:+ substring (Z.to_nat n) (Z.to_nat (k - n)) digits
  else if ((-6 <? n) && (n <=? 0))%Z then
    "0." +:+ zeros (Z.to_nat (- n)) +:+ digits
  else
    let exponent :=
      (if (n - 1 <? 0)%Z then "-" else "+") +:+ Z_toString (Z.abs (n - 1)) in
    if (k =? 1)%Z then digits +:+ "e" +:+ exponent
    else
      substring 0 1 digits +:+ "."
      +:+ substring 1 (String.length digits - 1) digits +:+ "e" +:+ exponent.

Definition JsNumber_toString (x : JsNumber) : string :=
  match x with
  | NaN => "NaN"
  | Zero _ => "0"
  | Infinite negative => sign_text negative +:+ "Infinity"
  | Finite negative digits n => sign_text negative +:+ unsigned_toString digits n
  end.

Definition js_numbers : NumberRepr :=
  {| number := JsNumber; Number_toString := JsNumber_toString |}.

(** The decimal string representation of a number: its digits written out
    positionally, whatever its magnitude.  [NaN] and the infinities have
    none. *)
Definition positional (digits : string) (n : Z) : string :=
  let k := Z.of_nat (String.length digits) in
  if (k <=? n)%Z then digits +:+ zeros (Z.to_nat (n - k))
  else if (0 <? n)%Z then
    substring 0 (Z.to_nat n) digits +:+ "."
    +:+ substring (Z.to_nat n) (Z.to_nat (k - n)) digits
  else "0." +:+ zeros (Z.to_nat (- n)) +:+ digits.

Definition decimal_string (x : JsNumber) : option string :=
  match x with
  | Finite negative digits n => Some (sign_text negative +:+ positional digits n)
  | Zero _ => Some "0"
  | NaN | Infinite _ => None
  end.

(** The numbers [Number::toString] renders positionally: zero, and the
    finite numbers of magnitude at least 10^-6 and below 10^21. *)
Definition rendered_positionally (x : JsNumber) : Prop :=
  match x with
  | Finite _ _ n => (-6 < n ≤ 21)%Z
  | Zero _ => True
  | NaN | Infinite _ => False
  end.

Section Model.

Context {NR : NumberRepr}.

(** ** Values, errors and payloads *)

(** The values that reach [formatNumber]: its declared [number | string],
    and [undefined] / [null] for a field that an upstream payload lacks. *)
Inductive JsVal :=
| VUndefined
| VNull
| VNum (n : number)
| VStr (s : string).

Record AxiosResponse := {
  status : number;
  statusText : string;
}.

(** What a [catch] clause can receive.  [AxiosError] carries the upstream
    response when there was one; [GoldPriceError] is the service's own
    class (message, source). *)
Inductive Exn :=
| AxiosError (response : option AxiosResponse)
| GoldPriceError (message source : string)
| TypeError (message : string)
| Error (message : string).

Definition Result (A : Type) : Type := (Exn + A)%type.

(** The body of the Gold API response: [null] or [undefined], a text that
    was not JSON, or an object with its fields. *)
Inductive WorldBody :=
| BodyNull
| BodyText (s : string)
| BodyObject (fields : gmap string JsVal).

(** [DojiGoldResponse], as xml2js delivers it: the attributes of an
    element under [$], every child element as the array of its
    occurrences.  The cast [result as DojiGoldResponse] checks nothing, so
    whatever the document does not contain is [undefined] here: an
    attribute the row does not carry, the [$] of a row without attributes,
    the [Row] of a table without rows, a collection that does not occur
    (xml2js produces no empty array), the root element itself.  A result
    that is [null] is a response without [GoldList]: reading [GoldList] of
    it throws, as reading [DGPlist] of the missing [GoldList] does. *)
Record RowAttrs := {
  Name : option string;
  Key : option string;
  Sell : option string;
  Buy : option string;
}.

Record DojiRow := { attrs : option RowAttrs }.

Record DojiTable := {
  DateTime : list string;
  Row : option (list DojiRow);
}.

Record DojiGoldList := {
  DGPlist : option (list DojiTable);
  JewelryList : option (list DojiTable);
}.

Record DojiGoldResponse := { GoldList : option DojiGoldList }.

(** [BTMCGoldResponse]: flat records with string values, under
    [DataList.Data] when the body has them.  The body itself is what axios
    made of the response: [null] or [undefined], a text that was not JSON,
    or an object. *)
Record BTMCDataList := { Data : option (list (gmap string string)) }.

Record BTMCGoldResponse := { DataList : option BTMCDataList }.

Inductive BtmcBody :=
| BtmcBodyNull
| BtmcBodyText (s : string)
| BtmcBodyObject (data : BTMCGoldResponse).

(** ** The world outside the service

    One cycle sees one outcome per call of [axios.get], one clock reading
    and one Telegram configuration.  What axios does on the wire inside a
    call (a redirect it follows, say) is part of that call's outcome. *)

Inductive Source := WorldGold | DOJI | BTMC.

Record Env := {
  (** [axios.get] on the Gold API: rejection, or [response.data] *)
  goldapi_response : Result WorldBody;
  (** [axios.get] on the DOJI endpoint: rejection, or the XML text *)
  doji_response : Result string;
  (** [xml2js.Parser.parseStringPromise] *)
  xml_parse : string → Result DojiGoldResponse;
  (** [axios.get] on the BTMC endpoint: rejection, or [response.data] *)
  btmc_response : Result BtmcBody;
  (** [new Date().toLocaleString()] *)
  clock : string;
  (** [process.env.TELEGRAM_CHAT_ID] *)
  TELEGRAM_CHAT_ID : option string;
  (** [bot.sendMessage(chatId, text)]: [None] when delivered, otherwise the
      message of the error it rejects with *)
  bot : string → string → option string;
}.

(** What a cycle does to the outside, in order: [HttpGet src] is one call
    of [axios.get] on the endpoint of [src], [BotSend] one call of the
    bot.  Log lines are left out: the logger influences neither control
    flow nor any message. *)
Inductive Event :=
| HttpGet (src : Source)
| BotSend (chatId text : string) (delivered : bool).

Definition Trace := list Event.

(** A synchronous expression that may throw, followed by the rest. *)
Definition and_then {A B} (r : Result A) (k : A → Result B) : Result B :=
  match r with
  | inl e => inl e
  | inr a => k a
  end.

(** ** Computations: environment, trace and exceptions *)

Definition M (A : Type) : Type := Env → Trace → Trace * Result A.

Definition ret {A} (a : A) : M A := λ _ tr, (tr, inr a).

Definition throw {A} (e : Exn) : M A := λ _ tr, (tr, inl e).

Definition bind {A B} (m : M A) (k : A → M B) : M B :=
  λ env tr,
    match m env tr with
    | (tr', inr a) => k a env tr'
    | (tr', inl e) => (tr', inl e)
    end.

(** [try { m } catch (error) { handler }] *)
Definition try_catch {A} (m : M A) (handler : Exn → M A) : M A :=
  λ env tr,
    match m env tr with
    | (tr', inl e) => handler e env tr'
    | done => done
    end.

(** A synchronous expression that may throw. *)
Definition lift {A} (r : Result A) : M A := λ _ tr, (tr, r).

Definition ask {A} (field : Env → A) : M A := λ env tr, (tr, inr (field env)).

End Model.

Notation "'let?' x ':=' r 'in' k" := (and_then r (λ x, k))
  (at level 10, x name, r at level 100, k at level 200,
   format "'[v' 'let?'  x  ':='  r  'in' '/' k ']'").
Notation "'let!' x ':=' m 'in' k" := (bind m (λ x, k))
  (at level 10, x name, m at level 100, k at level 200,
   format "'[v' 'let!'  x  ':='  m  'in' '/' k ']'").

(** ** [TelegramService] *)

Section Telegram.

Context {NR : NumberRepr}.

(** [!chatId]: the variable is unset or empty. *)
Definition missing (v : option string) : bool :=
  match v with
  | None => true
  | Some s => String.eqb s ""
  end.

(** [await this.bot.sendMessage(chatId, message, ...)] *)
Definition bot_sendMessage (chatId message : string) : M unit :=
  λ env tr,
    match bot env chatId message with
    | None => ((tr ++ [BotSend chatId message true])%list, inr tt)
    | Some err => ((tr ++ [BotSend chatId message false])%list, inl (Error err))
    end.

Definition sendMessage (message : string) : M unit :=
  try_catch
    (let! chatId := ask TELEGRAM_CHAT_ID in
     if missing chatId then throw (Error "TELEGRAM_CHAT_ID is not defined")
     else bot_sendMessage (default "" chatId) message)
    (λ error, throw error).

End Telegram.

(** ** [GoldService] *)

Section Gold.

Context {NR : NumberRepr}.

(** [num.toString()]: a property access on [undefined] or [null] throws. *)
Definition toString (num : JsVal) : Result string :=
  match num with
  | VUndefined =>
      inl (TypeError "Cannot read properties of undefined (reading 'toString')")
  | VNull =>
      inl (TypeError "Cannot read properties of null (reading 'toString')")
  | VNum n => inr (Number_toString n)
  | VStr s => inr s
  end.

Definition formatNumber (num : JsVal) : Result string :=
  let? numStr := toString num in
  inr (Pattern.replace numStr).

(** [axios.get(url)] for one source: the call is made, and the
    environment decides how it ends. *)
Definition axios_get {A} (src : Source) (outcome : Env → Result A) : M A :=
  λ env tr, ((tr ++ [HttpGet src])%list, outcome env).

(** [`${error.response?.status}`] and [`${error.response?.statusText}`]:
    [undefined] is spelled out by the template. *)
Definition status_text (response : option AxiosResponse) : string :=
  match response with
  | Some r => Number_toString (status r)
  | None => "undefined"
  end.

Definition statusText_text (response : option AxiosResponse) : string :=
  match response with
  | Some r => statusText r
  | None => "undefined"
  end.

(** The [catch] clause shared, up to the source's name and generic
    message, by the three fetchers. *)
Definition wrap_failure {A} (generic source : string) (error : Exn) : M A :=
  match error with
  | AxiosError response =>
      throw (GoldPriceError
               ("API Error: " +:+ status_text response +:+ " - "
                +:+ statusText_text response)
               source)
  | _ => throw (GoldPriceError generic source)
  end.

(** [response.data.price] *)
Definition data_price (data : WorldBody) : Result JsVal :=
  match data with
  | BodyNull =>
      inl (TypeError "Cannot read properties of null (reading 'price')")
  | BodyText _ => inr VUndefined
  | BodyObject fields => inr (default VUndefined (fields !! "price"))
  end.

Definition fetchWorldGoldPrice : M JsVal :=
  try_catch
    (let! data := axios_get WorldGold goldapi_response in
     lift (data_price data))
    (wrap_failure "Failed to fetch world gold price" "World Gold").

(** [Array.prototype.map] with a callback that may throw: the first
    exception ends the traversal. *)
Fixpoint map_throwing {A B} (f : A → Result B) (l : list A) : Result (list B) :=
  match l with
  | [] => inr []
  | x :: rest =>
      let? y := f x in
      let? ys := map_throwing f rest in
      inr (y :: ys)
  end.

(** The two-line block of one price line:
    [`- ${label}:\n  Mua: ${formatNumber(buy)} VND\n  Bán: ${formatNumber(sell)} VND`] *)
Definition price_block (label : string) (buy sell : JsVal) : Result string :=
  let? b := formatNumber buy in
  let? s := formatNumber sell in
  inr ("- " +:+ label +:+ ":" +:+ Js.LF +:+ "  Mua: " +:+ b +:+ " VND"
       +:+ Js.LF +:+ "  Bán: " +:+ s +:+ " VND").

(** [Array.prototype.filter] with a callback that may throw: the first
    exception ends the traversal. *)
Fixpoint filter_throwing {A} (p : A → Result bool) (l : list A)
  : Result (list A) :=
  match l with
  | [] => inr []
  | x :: rest =>
      let? keep := p x in
      let? kept := filter_throwing p rest in
      inr (if keep then x :: kept else kept)
  end.

(** A value of type [string | undefined] as an argument of
    [formatNumber], and inside a template literal. *)
Definition of_field (v : option string) : JsVal :=
  match v with
  | Some s => VStr s
  | None => VUndefined
  end.

Definition template_text (v : option string) : string :=
  match v with
  | Some s => s
  | None => "undefined"
  end.

(** [data.GoldList], read in order to read a collection of it. *)
Definition read_GoldList (data : DojiGoldResponse) : Result DojiGoldList :=
  match GoldList data with
  | None =>
      inl (TypeError "Cannot read properties of undefined (reading 'DGPlist')")
  | Some goldList => inr goldList
  end.

(** [tables[0].Row], read in order to call [filter] on it: the access
    throws without the collection, without a first table, and the call
    throws without rows. *)
Definition first_Row (tables : option (list DojiTable)) : Result (list DojiRow) :=
  match tables with
  | None => inl (TypeError "Cannot read properties of undefined (reading '0')")
  | Some [] =>
      inl (TypeError "Cannot read properties of undefined (reading 'Row')")
  | Some (table :: _) =>
      match Row table with
      | None =>
          inl (TypeError "Cannot read properties of undefined (reading 'filter')")
      | Some rows => inr rows
      end
  end.

(** [row.$.Name.includes(needle)] *)
Definition name_includes (row : DojiRow) (needle : string) : Result bool :=
  match attrs row with
  | None => inl (TypeError "Cannot read properties of undefined (reading 'Name')")
  | Some a =>
      match Name a with
      | None =>
          inl (TypeError "Cannot read properties of undefined (reading 'includes')")
      | Some name => inr (Js.includes name needle)
      end
  end.

Definition is_brand_row (row : DojiRow) : Result bool :=
  name_includes row "DOJI".

Definition is_purity_row (row : DojiRow) : Result bool :=
  let? has24k := name_includes row "24k" in
  if has24k then inr true else name_includes row "9999".

Definition doji_block (row : DojiRow) : Result string :=
  match attrs row with
  | None => inl (TypeError "Cannot read properties of undefined (reading 'Name')")
  | Some a =>
      price_block (template_text (Name a)) (of_field (Buy a)) (of_field (Sell a))
  end.

(** The body of [fetchDojiPrice] after the XML has been parsed. *)
Definition doji_prices (data : DojiGoldResponse) : Result string :=
  let? goldList := read_GoldList data in
  let? rows := first_Row (DGPlist goldList) in
  let? kept := filter_throwing is_brand_row rows in
  let? blocks := map_throwing doji_block kept in
  let sjcPrices := Js.join Js.LF blocks in
  let? goldList' := read_GoldList data in
  let? jrows := first_Row (JewelryList goldList') in
  let? jkept := filter_throwing is_purity_row jrows in
  let? jblocks := map_throwing doji_block jkept in
  let jewelryPrices := Js.join Js.LF jblocks in
  inr (sjcPrices +:+ Js.LF +:+ jewelryPrices).

Definition parseStringPromise (xml : string) : M DojiGoldResponse :=
  λ env tr, (tr, xml_parse env xml).

Definition fetchDojiPrice : M string :=
  try_catch
    (let! xml := axios_get DOJI doji_response in
     let! data := parseStringPromise xml in
     lift (doji_prices data))
    (wrap_failure "Failed to fetch DOJI prices" "DOJI").

(** [a || b] on values of type [string | undefined]: the left operand when
    it is truthy (a non-empty string), the right operand otherwise. *)
Definition truthy (v : option string) : bool :=
  match v with
  | Some s => negb (String.eqb s "")
  | None => false
  end.

Definition js_or (a b : option string) : option string :=
  if truthy a then a else b.

Infix "|||" := js_or (at level 50, left associativity).

(** The five fields of a BTMC record, each probed under its five
    positional keys. *)
Definition item_name (item : gmap string string) : option string :=
  item !! "@n_1" ||| item !! "@n_2" ||| item !! "@n_3" ||| item !! "@n_4"
  ||| item !! "@n_5".

Definition item_karat (item : gmap string string) : option string :=
  item !! "@k_1" ||| item !! "@k_2" ||| item !! "@k_3" ||| item !! "@k_4"
  ||| item !! "@k_5".

Definition item_purity (item : gmap string string) : option string :=
  item !! "@h_1" ||| item !! "@h_2" ||| item !! "@h_3" ||| item !! "@h_4"
  ||| item !! "@h_5".

Definition item_buyPrice (item : gmap string string) : option string :=
  item !! "@pb_1" ||| item !! "@pb_2" ||| item !! "@pb_3" ||| item !! "@pb_4"
  ||| item !! "@pb_5".

Definition item_sellPrice (item : gmap string string) : option string :=
  item !! "@ps_1" ||| item !! "@ps_2" ||| item !! "@ps_3" ||| item !! "@ps_4"
  ||| item !! "@ps_5".

(** [name?.includes('SJC')] as a condition: [undefined] is falsy. *)
Definition name_has_SJC (name : option string) : bool :=
  match name with
  | Some n => Js.includes n "SJC"
  | None => false
  end.

(** The callback of [Data.filter]. *)
Definition keep_item (item : gmap string string) : bool :=
  let name := item_name item in
  let karat := item_karat item in
  let purity := item_purity item in
  name_has_SJC name
  || (bool_decide (karat = Some "24k") && bool_decide (purity = Some "999.9")).

(** The callback of [prices.map]. *)
Definition btmc_block (item : gmap string string) : Result string :=
  let name := item_name item in
  let buyPrice := item_buyPrice item in
  let sellPrice := item_sellPrice item in
  let type := if name_has_SJC name then "SJC" else "Vàng 24K (999.9)" in
  price_block type (of_field buyPrice) (of_field sellPrice).

(** [response.data.DataList.Data], read in order to call [filter] on it. *)
Definition data_records (body : BtmcBody) : Result (list (gmap string string)) :=
  match body with
  | BtmcBodyNull =>
      inl (TypeError "Cannot read properties of null (reading 'DataList')")
  | BtmcBodyText _ =>
      inl (TypeError "Cannot read properties of undefined (reading 'Data')")
  | BtmcBodyObject data =>
      match DataList data with
      | None =>
          inl (TypeError "Cannot read properties of undefined (reading 'Data')")
      | Some dataList =>
          match Data dataList with
          | None =>
              inl (TypeError
                     "Cannot read properties of undefined (reading 'filter')")
          | Some records => inr records
          end
      end
  end.

(** The body of [fetchBaoTinPrice] once the response has arrived. *)
Definition btmc_prices (body : BtmcBody) : Result string :=
  let? records := data_records body in
  let prices := List.filter keep_item records in
  let? formattedPrices := map_throwing btmc_block prices in
  inr (Js.join Js.LF formattedPrices).

Definition fetchBaoTinPrice : M string :=
  try_catch
    (let! body := axios_get BTMC btmc_response in
     lift (btmc_prices body))
    (wrap_failure "Failed to fetch BTMC prices" "BTMC").

(** The report of a successful cycle, as the template literal spells it. *)
Definition report (now worldPrice dojiPrices btmcPrices : string) : string :=
  Js.LF +:+ "🕒 Gold Prices Update (" +:+ now +:+ ")" +:+ Js.LF
  +:+ Js.LF +:+ "🌍 World Gold Price: $" +:+ worldPrice +:+ "/oz" +:+ Js.LF
  +:+ Js.LF +:+ "🏪 Local Gold Shops:" +:+ Js.LF
  +:+ Js.LF +:+ "DOJI:" +:+ Js.LF
  +:+ dojiPrices +:+ Js.LF
  +:+ Js.LF +:+ "Bảo Tín Minh Châu:" +:+ Js.LF
  +:+ btmcPrices +:+ Js.LF
  +:+ "      ".

Definition warning (source message : string) : string :=
  "⚠️ Error fetching " +:+ source +:+ " prices: " +:+ message.

(** One scheduled cycle.  The first [formatNumber worldPrice] is the one
    interpolated into the log line after the world fetch: its value is only
    logged, but it is evaluated, and may throw, before DOJI is fetched. *)
Definition fetchAndNotifyPrices : M unit :=
  try_catch
    (let! worldPrice := fetchWorldGoldPrice in
     let! _ := lift (formatNumber worldPrice) in
     let! dojiPrices := fetchDojiPrice in
     let! btmcPrices := fetchBaoTinPrice in
     let! now := ask clock in
     let! worldText := lift (formatNumber worldPrice) in
     let message := report now worldText dojiPrices btmcPrices in
     sendMessage message)
    (λ error,
       match error with
       | GoldPriceError message source => sendMessage (warning source message)
       | _ => ret tt
       end).

(** The trace and outcome of one cycle. *)
Definition run_cycle (env : Env) : Trace * Result unit :=
  fetchAndNotifyPrices env [].

End Gold.

(** ** Vocabulary of the properties *)

Section Observations.

Context {NR : NumberRepr}.

(** The sources requested during a run, in order. *)
Definition fetched (tr : Trace) : list Source :=
  omap (λ ev, match ev with HttpGet src => Some src | _ => None end) tr.

(** The texts handed to the bot, delivered or not. *)
Definition attempts (tr : Trace) : list string :=
  omap (λ ev, match ev with BotSend _ text _ => Some text | _ => None end) tr.

(** The texts that reached the chat: the outward notifications. *)
Definition delivered (tr : Trace) : list string :=
  omap (λ ev, match ev with BotSend _ text true => Some text | _ => None end) tr.

(** What each fetcher returns to the cycle. *)
Definition world_outcome (env : Env) : Result JsVal :=
  (fetchWorldGoldPrice env []).2.

Definition doji_outcome (env : Env) : Result string :=
  (fetchDojiPrice env []).2.

Definition btmc_outcome (env : Env) : Result string :=
  (fetchBaoTinPrice env []).2.

(** The failure a fetcher's [catch] clause throws for a given error. *)
Definition wrapped (generic source : string) (error : Exn) : Exn :=
  match error with
  | AxiosError response =>
      GoldPriceError ("API Error: " +:+ status_text response +:+ " - "
                      +:+ statusText_text response) source
  | _ => GoldPriceError generic source
  end.

(** The text a DOJI row that carries its name and both prices is rendered
    as. *)
Definition doji_row_text (row : DojiRow) : string :=
  match attrs row with
  | Some a =>
      "- " +:+ template_text (Name a) +:+ ":" +:+ Js.LF
      +:+ "  Mua: " +:+ Pattern.replace (default "" (Buy a)) +:+ " VND" +:+ Js.LF
      +:+ "  Bán: " +:+ Pattern.replace (default "" (Sell a)) +:+ " VND"
  | None => ""
  end.

(** A row that carries a name; a row that carries both prices; a row whose
    name contains [needle]. *)
Definition row_named (row : DojiRow) : Prop :=
  ∃ a name, attrs row = Some a ∧ Name a = Some name.

Definition row_priced (row : DojiRow) : Prop :=
  ∃ a buy sell, attrs row = Some a ∧ Buy a = Some buy ∧ Sell a = Some sell.

Definition name_contains (row : DojiRow) (needle : string) : Prop :=
  ∃ a name, attrs row = Some a ∧ Name a = Some name
            ∧ Js.includes name needle = true.

(** Whether the name of a row, if it has one, contains [needle]. *)
Definition name_has (row : DojiRow) (needle : string) : bool :=
  match attrs row with
  | Some a =>
      match Name a with
      | Some name => Js.includes name needle
      | None => false
      end
  | None => false
  end.

(** A collection that does not occur, or occurs without any table. *)
Definition without_table (tables : option (list DojiTable)) : Prop :=
  tables = None ∨ tables = Some [].

(** A parsed DOJI payload with everything the code reads: the root
    element, a first table with rows in both collections, a name on every
    row of the two tables, and both prices on every row that passes a
    filter. *)
Definition doji_well_formed (data : DojiGoldResponse) : Prop :=
  ∃ gl rows1 rows2,
    GoldList data = Some gl
    ∧ first_Row (DGPlist gl) = inr rows1
    ∧ first_Row (JewelryList gl) = inr rows2
    ∧ (∀ row, In row rows1 ∨ In row rows2 → row_named row)
    ∧ (∀ row, In row rows1 → name_contains row "DOJI" → row_priced row)
    ∧ (∀ row, In row rows2 →
              name_contains row "24k" ∨ name_contains row "9999" →
              row_priced row).

(** A payload cut down to one table per collection. *)
Definition first_tables (t1 t2 : DojiTable) : DojiGoldResponse :=
  {| GoldList := Some {| DGPlist := Some [t1]; JewelryList := Some [t2] |} |}.

(** What a fetcher's [catch] clause makes of the outcome of its [try]
    block. *)
Definition after_catch {A} (generic source : string) (r : Result A) : Result A :=
  match r with
  | inl e => inl (wrapped generic source e)
  | inr a => inr a
  end.


(** The [catch] clause of the cycle. *)
Definition cycle_catch (error : Exn) : M unit :=
  match error with
  | GoldPriceError message source => sendMessage (warning source message)
  | _ => ret tt
  end.

(** Two environments with the same upstream behaviour: the three
    responses and the XML parser agree; clock and Telegram are free. *)
Definition same_upstream (e1 e2 : Env) : Prop :=
  goldapi_response e1 = goldapi_response e2
  ∧ doji_response e1 = doji_response e2
  ∧ xml_parse e1 = xml_parse e2
  ∧ btmc_response e1 = btmc_response e2.

(** The Telegram side works: a chat id is configured and the bot delivers
    whatever it is given. *)
Definition telegram_works (env : Env) : Prop :=
  ∃ chatId, TELEGRAM_CHAT_ID env = Some chatId ∧ chatId ≠ ""
            ∧ ∀ text, bot env chatId text = None.

(** A chat id is configured; whether the bot then delivers is left open. *)
Definition configured (env : Env) : Prop :=
  ∃ chatId, TELEGRAM_CHAT_ID env = Some chatId ∧ chatId ≠ "".

(** The tag each fetcher gives its failures. *)
Definition source_name (src : Source) : string :=
  match src with
  | WorldGold => "World Gold"
  | DOJI => "DOJI"
  | BTMC => "BTMC"
  end.

(** The sources in the order the cycle requests them, up to [src]. *)
Definition sources_through (src : Source) : list Source :=
  match src with
  | WorldGold => [WorldGold]
  | DOJI => [WorldGold; DOJI]
  | BTMC => [WorldGold; DOJI; BTMC]
  end.

(** The error the fetch of [src] ends with, if it fails. *)
Definition failure_of (src : Source) (env : Env) : option Exn :=
  match src with
  | WorldGold => match world_outcome env with inl e => Some e | inr _ => None end
  | DOJI => match doji_outcome env with inl e => Some e | inr _ => None end
  | BTMC => match btmc_outcome env with inl e => Some e | inr _ => None end
  end.

(** The world price was fetched and can be formatted. *)
Definition world_price_ok (env : Env) : Prop :=
  ∃ price text, world_outcome env = inr price ∧ formatNumber price = inr text.

(** Everything the cycle does before requesting [src] succeeds. *)
Definition reaches (src : Source) (env : Env) : Prop :=
  match src with
  | WorldGold => True
  | DOJI => world_price_ok env
  | BTMC => world_price_ok env ∧ ∃ dojiPrices, doji_outcome env = inr dojiPrices
  end.

(** The five fields of a BTMC record and their positional keys. *)
Inductive Field := FName | FKarat | FPurity | FBuyPrice | FSellPrice.

Definition field_prefix (f : Field) : string :=
  match f with
  | FName => "@n_"
  | FKarat => "@k_"
  | FPurity => "@h_"
  | FBuyPrice => "@pb_"
  | FSellPrice => "@ps_"
  end.

Definition slot_digit (i : nat) : string :=
  match i with
  | 1 => "1" | 2 => "2" | 3 => "3" | 4 => "4" | 5 => "5"
  | _ => ""
  end.

Definition slot_key (f : Field) (i : nat) : string :=
  field_prefix f +:+ slot_digit i.

Definition resolve (f : Field) (item : gmap string string) : option string :=
  match f with
  | FName => item_name item
  | FKarat => item_karat item
  | FPurity => item_purity item
  | FBuyPrice => item_buyPrice item
  | FSellPrice => item_sellPrice item
  end.

(** A slot that is absent or holds the empty string. *)
Definition slot_empty (f : Field) (i : nat) (item : gmap string string) : Prop :=
  item !! slot_key f i = None ∨ item !! slot_key f i = Some "".

End Observations.

(** Thousands grouping as the specification words it, for a string of
    digits: a separator in front of every complete group of three digits
    counted from the right, except at the very start. *)
Fixpoint all_digits (s : string) : bool :=
  match s with
  | EmptyString => true
  | String c rest => Js.is_digit c && all_digits rest
  end.

Definition group_starts (remaining : nat) : bool :=
  (0 <? remaining) && (remaining mod 3 =? 0).

Fixpoint group_thousands (digits : string) : string :=
  match digits with
  | EmptyString => EmptyString
  | String c rest =>
      String c ((if group_starts (String.length rest) then "," else "")
                +:+ group_thousands rest)
  end.

(** ** Construction of [GoldService]

    The constructor reads the three API keys from the configuration
    service and refuses to build the service when one is missing. *)

Section Startup.

Context {NR : NumberRepr}.

Record GoldService := {
  BTMC_API_KEY : string;
  DOJI_API_KEY : string;
  GOLD_API_TOKEN : string;
}.

(** [this.configService.get<string>(key) || ''] *)
Definition or_empty (v : option string) : string :=
  if truthy v then default "" v else "".

(** [constructor(telegramService, configService)], with [get] standing for
    [configService.get]; [!key] holds of the empty string. *)
Definition GoldService_constructor (get : string → option string)
  : Result GoldService :=
  let BTMC_API_KEY := or_empty (get "BTMC_API_KEY") in
  let DOJI_API_KEY := or_empty (get "DOJI_API_KEY") in
  let GOLD_API_TOKEN := or_empty (get "GOLD_API_TOKEN") in
  if String.eqb BTMC_API_KEY "" || String.eqb DOJI_API_KEY ""
     || String.eqb GOLD_API_TOKEN ""
  then inl (Error "Required API keys are not configured in environment variables")
  else inr {| BTMC_API_KEY := BTMC_API_KEY;
              DOJI_API_KEY := DOJI_API_KEY;
              GOLD_API_TOKEN := GOLD_API_TOKEN |}.

End Startup.

(** ** Further vocabulary *)


(** A text without any digit. *)
Fixpoint no_digits (s : string) : bool :=
  match s with
  | EmptyString => true
  | String c rest => negb (Js.is_digit c) && no_digits rest
  end.




(** ** Concrete payloads

    Environments over integer-valued numbers, for evaluating the service on
    explicit inputs. *)

Module Sample.

#[local] Existing Instance integer_numbers.

Definition row (name buy sell : string) : DojiRow :=
  {| attrs := Some {| Name := Some name; Key := Some "key";
                      Sell := Some sell; Buy := Some buy |} |}.

Definition table (rows : list DojiRow) : DojiTable :=
  {| DateTime := ["10:00 02/11/2026"]; Row := Some rows |}.

Definition doji_document (first second : list DojiTable) : DojiGoldResponse :=
  {| GoldList := Some {| DGPlist := Some first; JewelryList := Some second |} |}.

(** A DOJI payload with a second table in the first collection. *)
Definition doji_payload : DojiGoldResponse :=
  doji_document
    [ table [ row "DOJI HN" "8900000" "9000000";
              row "AVPL" "8800000" "8950000" ];
      table [ row "DOJI HCM" "1" "2" ] ]
    [ table [ row "Nhẫn 9999" "8700000" "8850000";
              row "Nữ trang 18k" "6000000" "6500000" ] ].

(** A brand row that carries no sell price, and a payload with it. *)
Definition row_without_sell : DojiRow :=
  {| attrs := Some {| Name := Some "DOJI HN"; Key := Some "key";
                      Sell := None; Buy := Some "8900000" |} |}.

Definition doji_payload_without_sell : DojiGoldResponse :=
  doji_document [ table [ row_without_sell ] ] [ table [] ].

(** A payload whose first table of the first collection has no row. *)
Definition doji_payload_rowless : DojiGoldResponse :=
  doji_document
    [ {| DateTime := []; Row := None |} ]
    [ table [ row "Nhẫn 9999" "8700000" "8850000" ] ].

(** A payload without the second collection. *)
Definition doji_payload_no_jewelry : DojiGoldResponse :=
  {| GoldList :=
       Some {| DGPlist := Some [ table [ row "DOJI HN" "8900000" "9000000" ] ];
               JewelryList := None |} |}.

(** A BTMC record whose buy price sits in the third slot only. *)
Definition third_slot_item : gmap string string :=
  {[ "@n_1" := "VANG MIENG SJC"; "@pb_3" := "8900000"; "@ps_5" := "9000000" ]}.

(** A kept BTMC record without any buy-price slot. *)
Definition unresolved_item : gmap string string :=
  {[ "@n_1" := "VANG MIENG SJC"; "@ps_1" := "9000000" ]}.

(** A kept BTMC record whose buy-price slots are absent but for the fifth,
    which holds the empty string. *)
Definition empty_fifth_item : gmap string string :=
  {[ "@n_1" := "VANG MIENG SJC"; "@pb_5" := ""; "@ps_1" := "9000000" ]}.

Definition btmc_payload (items : list (gmap string string)) : BtmcBody :=
  BtmcBodyObject {| DataList := Some {| Data := Some items |} |}.

(** Everything answers and the bot delivers. *)
Definition healthy : Env :=
  {| goldapi_response := inr (BodyObject {[ "price" := VStr "2650.37" ]});
     doji_response := inr "<GoldList/>";
     xml_parse := λ _, inr doji_payload;
     btmc_response := inr (btmc_payload [third_slot_item]);
     clock := "11/2/2026, 10:00:00 AM";
     TELEGRAM_CHAT_ID := Some "-1001";
     bot := λ _ _, None |}.

(** The same upstream ten minutes later, another chat, a failing bot. *)
Definition healthy_later : Env :=
  {| goldapi_response := goldapi_response healthy;
     doji_response := doji_response healthy;
     xml_parse := xml_parse healthy;
     btmc_response := btmc_response healthy;
     clock := "11/2/2026, 10:10:00 AM";
     TELEGRAM_CHAT_ID := Some "-1002";
     bot := λ _ _, Some "ETELEGRAM: 502 Bad Gateway" |}.

(** The Gold API answers 500. *)
Definition world_down : Env :=
  {| goldapi_response :=
       inl (AxiosError (Some {| status := 500%Z;
                                statusText := "Internal Server Error" |}));
     doji_response := doji_response healthy;
     xml_parse := xml_parse healthy;
     btmc_response := btmc_response healthy;
     clock := clock healthy;
     TELEGRAM_CHAT_ID := TELEGRAM_CHAT_ID healthy;
     bot := bot healthy |}.

(** The Gold API answers with an object that has no [price]. *)
Definition no_price : Env :=
  {| goldapi_response := inr (BodyObject {[ "error" := VStr "No data available" ]});
     doji_response := doji_response healthy;
     xml_parse := xml_parse healthy;
     btmc_response := btmc_response healthy;
     clock := clock healthy;
     TELEGRAM_CHAT_ID := TELEGRAM_CHAT_ID healthy;
     bot := bot healthy |}.

(** All three sources answer, the bot rejects the message. *)
Definition bot_down : Env :=
  {| goldapi_response := goldapi_response healthy;
     doji_response := doji_response healthy;
     xml_parse := xml_parse healthy;
     btmc_response := btmc_response healthy;
     clock := clock healthy;
     TELEGRAM_CHAT_ID := TELEGRAM_CHAT_ID healthy;
     bot := λ _ _, Some "ETELEGRAM: 502 Bad Gateway" |}.

(** DOJI is unreachable. *)
Definition doji_down : Env :=
  {| goldapi_response := goldapi_response healthy;
     doji_response := inl (AxiosError None);
     xml_parse := xml_parse healthy;
     btmc_response := btmc_response healthy;
     clock := clock healthy;
     TELEGRAM_CHAT_ID := TELEGRAM_CHAT_ID healthy;
     bot := bot healthy |}.

Definition with_btmc (items : list (gmap string string)) : Env :=
  {| goldapi_response := goldapi_response healthy;
     doji_response := doji_response healthy;
     xml_parse := xml_parse healthy;
     btmc_response := inr (btmc_payload items);
     clock := clock healthy;
     TELEGRAM_CHAT_ID := TELEGRAM_CHAT_ID healthy;
     bot := bot healthy |}.

(** BTMC answers 500. *)
Definition btmc_down : Env :=
  {| goldapi_response := goldapi_response healthy;
     doji_response := doji_response healthy;
     xml_parse := xml_parse healthy;
     btmc_response :=
       inl (AxiosError (Some {| status := 500%Z;
                                statusText := "Internal Server Error" |}));
     clock := clock healthy;
     TELEGRAM_CHAT_ID := TELEGRAM_CHAT_ID healthy;
     bot := bot healthy |}.

(** DOJI is unreachable and no chat id is configured. *)
Definition doji_down_no_chat : Env :=
  {| goldapi_response := goldapi_response healthy;
     doji_response := inl (AxiosError None);
     xml_parse := xml_parse healthy;
     btmc_response := btmc_response healthy;
     clock := clock healthy;
     TELEGRAM_CHAT_ID := None;
     bot := bot healthy |}.

(** The DOJI document is not well-formed XML. *)
Definition doji_bad_xml : Env :=
  {| goldapi_response := goldapi_response healthy;
     doji_response := inr "<GoldList>";
     xml_parse := λ _, inl (Error "Unclosed root tag");
     btmc_response := btmc_response healthy;
     clock := clock healthy;
     TELEGRAM_CHAT_ID := TELEGRAM_CHAT_ID healthy;
     bot := bot healthy |}.

(** A DOJI payload none of whose rows passes a filter. *)
Definition doji_other_brands : DojiGoldResponse :=
  doji_document
    [ table [ row "AVPL" "8800000" "8950000" ] ]
    [ table [ row "Nữ trang 18k" "6000000" "6500000" ] ].

Definition with_doji (data : DojiGoldResponse) : Env :=
  {| goldapi_response := goldapi_response healthy;
     doji_response := doji_response healthy;
     xml_parse := λ _, inr data;
     btmc_response := btmc_response healthy;
     clock := clock healthy;
     TELEGRAM_CHAT_ID := TELEGRAM_CHAT_ID healthy;
     bot := bot healthy |}.


Definition doji_nothing_kept : Env :=
  {| goldapi_response := goldapi_response healthy;
     doji_response := doji_response healthy;
     xml_parse := λ _, inr doji_other_brands;
     btmc_response := btmc_response healthy;
     clock := clock healthy;
     TELEGRAM_CHAT_ID := TELEGRAM_CHAT_ID healthy;
     bot := bot healthy |}.



(** A configuration with all three keys, and one with an empty key. *)
Definition full_config (key : string) : option string :=
  if String.eqb key "BTMC_API_KEY" then Some "btmc-key"
  else if String.eqb key "DOJI_API_KEY" then Some "doji-key"
  else if String.eqb key "GOLD_API_TOKEN" then Some "goldapi-token"
  else None.

Definition empty_key_config (key : string) : option string :=
  if String.eqb key "DOJI_API_KEY" then Some "" else full_config key.

End Sample.

(** * Properties *)

(** ** The formatter's pattern on digit strings *)

Lemma group_starts_small n : n < 3 → group_starts n = false.
Proof.
  intros H. destruct n as [|[|[|n]]]; [reflexivity..|lia].
Qed.

Lemma group_starts_add3 n : group_starts (S (S (S (S n)))) = group_starts (S n).
Proof.
  unfold group_starts.
  replace (S (S (S (S n)))) with (S n + 1 * 3) by lia.
  rewrite Nat.Div0.mod_add. reflexivity.
Qed.

Lemma append_assoc (a b c : string) : (a +:+ b) +:+ c = a +:+ (b +:+ c).
Proof.
  induction a as [|x a IH]; [reflexivity|].
  cbn [append]. rewrite IH. reflexivity.
Qed.

Lemma digit_is_word c : Js.is_digit c = true → Js.is_word c = true.
Proof.
  unfold Js.is_digit, Js.is_word. cbv zeta. intros ->.
  rewrite orb_true_r. reflexivity.
Qed.

Lemma groups_of_three_short s :
  String.length s < 3 → Pattern.groups_of_three s = false.
Proof.
  destruct s as [|a [|b [|c rest]]]; simpl; intros H; try reflexivity; lia.
Qed.

(** The lookahead seen from the start of a run of digits that is followed
    by something other than a digit: it succeeds exactly when the run
    splits into complete groups of three. *)
Lemma groups_of_three_run s t :
  all_digits s = true →
  Pattern.no_digit_ahead t = true →
  Pattern.groups_of_three (s +:+ t) = group_starts (String.length s).
Proof.
  remember (String.length s) as n eqn:Hn.
  revert s Hn. induction (lt_wf n) as [n _ IH]. intros s Hn Hd Ht.
  assert (Hstop : ∀ u, Pattern.groups_of_three u = true →
                       Pattern.head u = Pattern.head t →
                       Pattern.no_digit_ahead t = true → False).
  { intros [|a [|b [|c u]]] Hu Hh Hno; try discriminate Hu.
    cbn [Pattern.groups_of_three] in Hu.
    destruct t as [|x t']; [discriminate Hh|].
    injection Hh as ->. cbn [Pattern.no_digit_ahead] in Hno.
    destruct (Js.is_digit x); discriminate. }
  destruct s as [|a [|b [|c rest]]]; subst n.
  - cbn [append String.length]. rewrite group_starts_small by lia.
    destruct (Pattern.groups_of_three t) eqn:E; [|reflexivity].
    exfalso. eapply Hstop; eauto.
  - rewrite group_starts_small by (simpl; lia).
    cbn [append]. destruct t as [|x [|y t']]; try reflexivity.
    cbn [Pattern.groups_of_three Pattern.no_digit_ahead] in *.
    destruct (Js.is_digit x); [discriminate|].
    rewrite andb_false_r. reflexivity.
  - rewrite group_starts_small by (simpl; lia).
    cbn [append]. destruct t as [|x t']; try reflexivity.
    cbn [Pattern.groups_of_three Pattern.no_digit_ahead] in *.
    destruct (Js.is_digit x); [discriminate|].
    rewrite andb_false_r. reflexivity.
  - cbn [all_digits] in Hd.
    apply andb_prop in Hd as [Ha Hd]. apply andb_prop in Hd as [Hb Hd].
    apply andb_prop in Hd as [Hc Hd].
    cbn [append Pattern.groups_of_three]. rewrite Ha, Hb, Hc. cbn [andb].
    rewrite (IH (String.length rest)) by (simpl; auto; lia).
    destruct rest as [|d rest'].
    + cbn [append]. rewrite Ht. reflexivity.
    + cbn [all_digits] in Hd. apply andb_prop in Hd as [Hd' _].
      cbn [append Pattern.no_digit_ahead]. rewrite Hd'.
      cbn [negb orb String.length]. symmetry. apply group_starts_add3.
Qed.

(** Replacement over a run of digits followed by a non-digit: the run is
    grouped, and the replacement carries on behind it. *)
Lemma replace_from_run s : ∀ prev t,
  all_digits s = true →
  Pattern.no_digit_ahead t = true →
  s ≠ "" →
  Pattern.replace_from prev (s +:+ t) =
    (if Pattern.word_side prev && group_starts (String.length s)
     then "," else "")
    +:+ group_thousands s
    +:+ (match t with
         | EmptyString => ""
         | String x t' => String x (Pattern.replace_from (Some x) t')
         end).
Proof.
  induction s as [|c rest IH]; intros prev t Hd Ht Hne; [congruence|].
  cbn [all_digits] in Hd. apply andb_prop in Hd as [Hc Hd].
  cbn [append Pattern.replace_from].
  unfold Pattern.matches_at at 1. cbn [Pattern.head].
  change (Pattern.groups_of_three (String c (rest +:+ t)))
    with (Pattern.groups_of_three (String c rest +:+ t)).
  rewrite groups_of_three_run by (cbn [all_digits]; rewrite ?Hc, ?Hd; auto).
  unfold Pattern.not_word_boundary.
  change (Pattern.word_side (Some c)) with (Js.is_word c).
  rewrite (digit_is_word c Hc).
  replace (Bool.eqb (Pattern.word_side prev) true) with (Pattern.word_side prev)
    by (destruct (Pattern.word_side prev); reflexivity).
  cbn [group_thousands].
  assert (Hrest :
    Pattern.replace_from (Some c) (rest +:+ t) =
      (if group_starts (String.length rest) then "," else "")
      +:+ group_thousands rest
      +:+ match t with
          | EmptyString => ""
          | String x t' => String x (Pattern.replace_from (Some x) t')
          end).
  { destruct rest as [|d rest'].
    - cbn [append group_thousands String.length].
      rewrite group_starts_small by lia. cbn [append].
      destruct t as [|x t']; cbn [Pattern.replace_from];
        unfold Pattern.matches_at.
      + cbn [Pattern.groups_of_three]. rewrite andb_false_r. reflexivity.
      + cbn [Pattern.no_digit_ahead] in Ht.
        assert (Pattern.groups_of_three (String x t') = false) as ->.
        { destruct t' as [|y [|z t'']]; try reflexivity.
          cbn [Pattern.groups_of_three].
          destruct (Js.is_digit x); [discriminate|reflexivity]. }
        rewrite andb_false_r. reflexivity.
    - rewrite IH by (auto; congruence).
      cbn [Pattern.word_side]. cbn [all_digits] in Hd.
      apply andb_prop in Hd as [Hd' _].
      rewrite (digit_is_word c Hc). reflexivity. }
  rewrite Hrest.
  destruct (Pattern.word_side prev && group_starts (String.length (String c rest)));
    cbn [append]; rewrite ?append_assoc; reflexivity.
Qed.

Lemma append_empty_r (s : string) : s +:+ "" = s.
Proof.
  induction s as [|c s IH]; [reflexivity|].
  cbn [append]. rewrite IH. reflexivity.
Qed.

Lemma groups_of_three_nondigit x t :
  Js.is_digit x = false → Pattern.groups_of_three (String x t) = false.
Proof.
  intros Hx. destruct t as [|y [|z t']]; try reflexivity.
  cbn [Pattern.groups_of_three]. rewrite Hx. reflexivity.
Qed.

Lemma replace_from_short s : ∀ prev,
  String.length s < 3 → Pattern.replace_from prev s = s.
Proof.
  induction s as [|c rest IH]; intros prev Hlen;
    cbn [Pattern.replace_from]; unfold Pattern.matches_at;
    rewrite groups_of_three_short by exact Hlen; rewrite andb_false_r.
  - reflexivity.
  - cbn [append]. rewrite IH by (cbn [String.length] in Hlen; lia).
    reflexivity.
Qed.

(** Behind a non-word character a run of at most three characters is left
    alone: its first position is a word boundary or starts no digit, and
    behind it fewer than three characters remain. *)
Lemma replace_from_after_boundary s prev :
  Pattern.word_side prev = false →
  String.length s ≤ 3 →
  Pattern.replace_from prev s = s.
Proof.
  intros Hprev Hlen. destruct s as [|c rest].
  - apply replace_from_short. cbn. lia.
  - cbn [Pattern.replace_from]. unfold Pattern.matches_at.
    assert (Pattern.not_word_boundary prev (Pattern.head (String c rest))
            && Pattern.groups_of_three (String c rest) = false) as ->.
    { unfold Pattern.not_word_boundary. rewrite Hprev. cbn [Pattern.head Pattern.word_side].
      destruct (Js.is_word c) eqn:Hw; [reflexivity|].
      rewrite groups_of_three_nondigit; [apply andb_false_r|].
      destruct (Js.is_digit c) eqn:Hc; [|reflexivity].
      rewrite (digit_is_word c Hc) in Hw. discriminate. }
    cbn [append]. rewrite replace_from_short by (cbn [String.length] in Hlen; lia).
    reflexivity.
Qed.

(** On a string of digits the pattern does what the specification calls
    thousands grouping. *)
Lemma replace_digits s :
  all_digits s = true → Pattern.replace s = group_thousands s.
Proof.
  intros Hd. destruct s as [|c rest]; [reflexivity|].
  unfold Pattern.replace.
  rewrite <- (append_empty_r (String c rest)) at 1.
  rewrite replace_from_run by (auto; congruence).
  cbn [Pattern.word_side andb append]. apply append_empty_r.
Qed.

(** With at most three fractional digits only the integer part is grouped. *)
Lemma replace_decimal int frac :
  all_digits int = true →
  String.length frac ≤ 3 →
  Pattern.replace (int +:+ "." +:+ frac) = group_thousands int +:+ "." +:+ frac.
Proof.
  intros Hd Hlen. unfold Pattern.replace.
  destruct int as [|c rest].
  - cbn [append group_thousands Pattern.replace_from].
    unfold Pattern.matches_at.
    rewrite groups_of_three_nondigit by reflexivity. rewrite andb_false_r.
    cbn [append]. rewrite replace_from_after_boundary by (auto; reflexivity).
    reflexivity.
  - rewrite replace_from_run by (auto; congruence).
    cbn [Pattern.word_side andb]. cbn [append].
    rewrite replace_from_after_boundary by (auto; reflexivity).
    reflexivity.
Qed.

Example replace_price : Pattern.replace "1234567.89" = "1,234,567.89".
Proof. apply (replace_decimal "1234567" "89"); [reflexivity | cbn; lia]. Qed.

(** ** Running the fetchers *)

Section Properties.

Context {NR : NumberRepr}.

Lemma formatNumber_VStr s : formatNumber (VStr s) = inr (Pattern.replace s).
Proof. reflexivity. Qed.

Lemma formatNumber_error v e :
  formatNumber v = inl e → ∃ message, e = TypeError message.
Proof.
  destruct v; cbn; intros H; try discriminate; injection H as <-; eauto.
Qed.

Lemma price_block_error label buy sell e :
  price_block label buy sell = inl e → ∃ message, e = TypeError message.
Proof.
  unfold price_block, and_then.
  destruct (formatNumber buy) eqn:Hb; [intros [= <-]; eapply formatNumber_error; eauto|].
  destruct (formatNumber sell) eqn:Hs; [intros [= <-]; eapply formatNumber_error; eauto|].
  discriminate.
Qed.

Lemma map_throwing_error {A B} (f : A → Result B) l e :
  map_throwing f l = inl e → ∃ x, In x l ∧ f x = inl e.
Proof.
  induction l as [|x l IH]; cbn; [discriminate|].
  unfold and_then at 1. destruct (f x) eqn:Hx.
  - intros [= <-]. eauto.
  - unfold and_then. destruct (map_throwing f l); [|discriminate].
    intros [= <-]. destruct IH as (y & Hy & Hfy); eauto.
Qed.

Lemma map_throwing_fails {A B} (f : A → Result B) l x e :
  In x l → f x = inl e → ∃ e', map_throwing f l = inl e' ∧ ∃ y, In y l ∧ f y = inl e'.
Proof.
  intros Hin Hx. destruct (map_throwing f l) as [e'|ys] eqn:Hm.
  - exists e'. split; [reflexivity|]. eapply map_throwing_error; eauto.
  - exfalso. revert ys Hm. induction l as [|z l IH]; [destruct Hin|].
    cbn. unfold and_then. destruct Hin as [->|Hin].
    + rewrite Hx. discriminate.
    + destruct (f z); [discriminate|].
      destruct (map_throwing f l); [discriminate|]. intros _ _. eapply IH; eauto.
Qed.

Lemma map_throwing_total {A B} (f : A → Result B) (g : A → B) l :
  (∀ x, In x l → f x = inr (g x)) → map_throwing f l = inr (map g l).
Proof.
  induction l as [|x l IH]; intros H; [reflexivity|].
  cbn. rewrite H by (left; reflexivity). cbn.
  rewrite IH by (intros; apply H; right; assumption). reflexivity.
Qed.

Lemma wrap_failure_run {A} generic source error env tr :
  @wrap_failure _ A generic source error env tr = (tr, inl (wrapped generic source error)).
Proof. destruct error; reflexivity. Qed.

Lemma fetchWorldGoldPrice_run env tr :
  fetchWorldGoldPrice env tr = ((tr ++ [HttpGet WorldGold])%list, world_outcome env).
Proof.
  unfold world_outcome, fetchWorldGoldPrice, try_catch, bind, axios_get, lift.
  destruct (goldapi_response env) as [e|data]; cbn.
  - rewrite !wrap_failure_run. reflexivity.
  - destruct (data_price data); [rewrite !wrap_failure_run|]; reflexivity.
Qed.

Lemma fetchDojiPrice_run env tr :
  fetchDojiPrice env tr = ((tr ++ [HttpGet DOJI])%list, doji_outcome env).
Proof.
  unfold doji_outcome, fetchDojiPrice, try_catch, bind, axios_get, lift,
    parseStringPromise.
  destruct (doji_response env) as [e|xml]; cbn.
  - rewrite !wrap_failure_run. reflexivity.
  - destruct (xml_parse env xml) as [e|data]; [rewrite !wrap_failure_run; reflexivity|].
    destruct (doji_prices data); [rewrite !wrap_failure_run|]; reflexivity.
Qed.

Lemma fetchBaoTinPrice_run env tr :
  fetchBaoTinPrice env tr = ((tr ++ [HttpGet BTMC])%list, btmc_outcome env).
Proof.
  unfold btmc_outcome, fetchBaoTinPrice, try_catch, bind, axios_get, lift.
  destruct (btmc_response env) as [e|data]; cbn.
  - rewrite !wrap_failure_run. reflexivity.
  - destruct (btmc_prices data); [rewrite !wrap_failure_run|]; reflexivity.
Qed.

(** The outcomes, case by case on what the upstream did. *)
Lemma world_outcome_eq env :
  world_outcome env =
    match goldapi_response env with
    | inl e => inl (wrapped "Failed to fetch world gold price" "World Gold" e)
    | inr data =>
        match data_price data with
        | inl e => inl (wrapped "Failed to fetch world gold price" "World Gold" e)
        | inr price => inr price
        end
    end.
Proof.
  unfold world_outcome, fetchWorldGoldPrice, try_catch, bind, axios_get, lift.
  destruct (goldapi_response env) as [e|data]; cbn.
  - rewrite wrap_failure_run. reflexivity.
  - destruct (data_price data); [rewrite wrap_failure_run|]; reflexivity.
Qed.

Lemma doji_outcome_eq env :
  doji_outcome env =
    match doji_response env with
    | inl e => inl (wrapped "Failed to fetch DOJI prices" "DOJI" e)
    | inr xml =>
        match xml_parse env xml with
        | inl e => inl (wrapped "Failed to fetch DOJI prices" "DOJI" e)
        | inr data =>
            match doji_prices data with
            | inl e => inl (wrapped "Failed to fetch DOJI prices" "DOJI" e)
            | inr text => inr text
            end
        end
    end.
Proof.
  unfold doji_outcome, fetchDojiPrice, try_catch, bind, axios_get, lift,
    parseStringPromise.
  destruct (doji_response env) as [e|xml]; cbn.
  - rewrite wrap_failure_run. reflexivity.
  - destruct (xml_parse env xml) as [e|data]; [rewrite wrap_failure_run; reflexivity|].
    destruct (doji_prices data); [rewrite wrap_failure_run|]; reflexivity.
Qed.

Lemma btmc_outcome_eq env :
  btmc_outcome env =
    match btmc_response env with
    | inl e => inl (wrapped "Failed to fetch BTMC prices" "BTMC" e)
    | inr data =>
        match btmc_prices data with
        | inl e => inl (wrapped "Failed to fetch BTMC prices" "BTMC" e)
        | inr text => inr text
        end
    end.
Proof.
  unfold btmc_outcome, fetchBaoTinPrice, try_catch, bind, axios_get, lift.
  destruct (btmc_response env) as [e|data]; cbn.
  - rewrite wrap_failure_run. reflexivity.
  - destruct (btmc_prices data); [rewrite wrap_failure_run|]; reflexivity.
Qed.

Lemma wrapped_is_failure generic source error :
  ∃ message, wrapped generic source error = GoldPriceError message source.
Proof. destruct error; cbn; eauto. Qed.

Lemma world_outcome_failure env e :
  world_outcome env = inl e → ∃ message, e = GoldPriceError message "World Gold".
Proof.
  rewrite world_outcome_eq.
  destruct (goldapi_response env) as [x|data]; [|destruct (data_price data) as [x|]];
    intros [= <-]; try apply wrapped_is_failure.
Qed.

Lemma doji_outcome_failure env e :
  doji_outcome env = inl e → ∃ message, e = GoldPriceError message "DOJI".
Proof.
  rewrite doji_outcome_eq.
  destruct (doji_response env) as [x|xml];
    [|destruct (xml_parse env xml) as [x|data];
      [|destruct (doji_prices data) as [x|]]];
    intros [= <-]; try apply wrapped_is_failure.
Qed.

Lemma btmc_outcome_failure env e :
  btmc_outcome env = inl e → ∃ message, e = GoldPriceError message "BTMC".
Proof.
  rewrite btmc_outcome_eq.
  destruct (btmc_response env) as [x|data]; [|destruct (btmc_prices data) as [x|]];
    intros [= <-]; try apply wrapped_is_failure.
Qed.

(** ** Running the cycle *)

Lemma sendMessage_run text env tr :
  sendMessage text env tr =
    match TELEGRAM_CHAT_ID env with
    | None => (tr, inl (Error "TELEGRAM_CHAT_ID is not defined"))
    | Some chatId =>
        if String.eqb chatId "" then
          (tr, inl (Error "TELEGRAM_CHAT_ID is not defined"))
        else
          match bot env chatId text with
          | None => ((tr ++ [BotSend chatId text true])%list, inr tt)
          | Some err => ((tr ++ [BotSend chatId text false])%list, inl (Error err))
          end
    end.
Proof.
  unfold sendMessage, try_catch, bind, ask, throw, missing, bot_sendMessage.
  destruct (TELEGRAM_CHAT_ID env) as [chatId|]; [|reflexivity].
  destruct (String.eqb chatId ""); [reflexivity|]. cbn.
  destruct (bot env chatId text); reflexivity.
Qed.

Lemma sendMessage_works text env tr :
  telegram_works env →
  ∃ chatId, sendMessage text env tr = ((tr ++ [BotSend chatId text true])%list, inr tt).
Proof.
  intros (chatId & Hid & Hne & Hbot). exists chatId.
  rewrite sendMessage_run, Hid, Hbot.
  destruct (String.eqb_spec chatId ""); [contradiction|reflexivity].
Qed.

(** A send appends at most one event, and none but a bot call. *)
Lemma sendMessage_trace text env tr :
  ∃ sent result, sendMessage text env tr = ((tr ++ sent)%list, result)
    ∧ fetched sent = [] ∧ (attempts sent = [] ∨ attempts sent = [text])
    ∧ (delivered sent = [] ∨ (delivered sent = [text] ∧ result = inr tt))
    ∧ (∀ e, result = inl e → ∀ m s, e ≠ GoldPriceError m s).
Proof.
  rewrite sendMessage_run.
  destruct (TELEGRAM_CHAT_ID env) as [chatId|].
  - destruct (String.eqb chatId "").
    + exists [], (inl (Error "TELEGRAM_CHAT_ID is not defined")).
      rewrite app_nil_r. repeat split; auto; intros e [= <-]; discriminate.
    + destruct (bot env chatId text) as [err|].
      * exists [BotSend chatId text false], (inl (Error err)).
        repeat split; auto; intros e [= <-]; discriminate.
      * exists [BotSend chatId text true], (inr tt).
        repeat split; auto; discriminate.
  - exists [], (inl (Error "TELEGRAM_CHAT_ID is not defined")).
    rewrite app_nil_r. repeat split; auto; intros e [= <-]; discriminate.
Qed.

(** The cycle, unfolded along the outcomes of its three fetches. *)
Lemma run_cycle_eq env :
  run_cycle env =
    match world_outcome env with
    | inl e => cycle_catch e env [HttpGet WorldGold]
    | inr worldPrice =>
        match formatNumber worldPrice with
        | inl e => cycle_catch e env [HttpGet WorldGold]
        | inr worldText =>
            match doji_outcome env with
            | inl e => cycle_catch e env [HttpGet WorldGold; HttpGet DOJI]
            | inr dojiPrices =>
                match btmc_outcome env with
                | inl e =>
                    cycle_catch e env [HttpGet WorldGold; HttpGet DOJI; HttpGet BTMC]
                | inr btmcPrices =>
                    match sendMessage
                            (report (clock env) worldText dojiPrices btmcPrices)
                            env [HttpGet WorldGold; HttpGet DOJI; HttpGet BTMC]
                    with
                    | (tr, inl e) => cycle_catch e env tr
                    | done => done
                    end
                end
            end
        end
    end.
Proof.
  unfold run_cycle, fetchAndNotifyPrices, try_catch at 1, bind.
  rewrite fetchWorldGoldPrice_run. cbn [app].
  destruct (world_outcome env) as [e|worldPrice]; [destruct e; reflexivity|].
  unfold lift at 1.
  destruct (formatNumber worldPrice) as [e|worldText] eqn:Hfmt;
    [destruct e; reflexivity|].
  rewrite fetchDojiPrice_run. cbn [app].
  destruct (doji_outcome env) as [e|dojiPrices]; [destruct e; reflexivity|].
  rewrite fetchBaoTinPrice_run. cbn [app].
  destruct (btmc_outcome env) as [e|btmcPrices]; [destruct e; reflexivity|].
  unfold ask, lift. cbn iota beta.
  destruct (sendMessage _ env _) as [tr [e|[]]]; [destruct e|]; reflexivity.
Qed.

(** ** [formatNumber] *)

(** Whatever the rendering of numbers, the formatter sees a number as the
    string [toString] makes of it. *)
Lemma formatNumber_number_as_string (n : number) :
  formatNumber (VNum n) = formatNumber (VStr (Number_toString n)).
Proof. reflexivity. Qed.

(** Where [Number::toString] writes a number out positionally, it writes
    the decimal string representation. *)
Lemma unsigned_toString_positional digits n :
  (-6 < n ≤ 21)%Z → unsigned_toString digits n = positional digits n.
Proof.
  intros Hn. unfold unsigned_toString, positional. cbv zeta.
  set (k := Z.of_nat (String.length digits)).
  destruct (Z.leb_spec k n) as [Hk|Hk].
  - replace (n <=? 21)%Z with true by (symmetry; apply Z.leb_le; lia).
    reflexivity.
  - cbn [andb]. destruct (Z.ltb_spec 0 n) as [Hpos|Hpos].
    + replace (n <=? 21)%Z with true by (symmetry; apply Z.leb_le; lia).
      reflexivity.
    + cbn [andb].
      replace (-6 <? n)%Z with true by (symmetry; apply Z.ltb_lt; lia).
      replace (n <=? 0)%Z with true by (symmetry; apply Z.leb_le; lia).
      reflexivity.
Qed.

(** C8, as the code has it.  A number that [toString] renders
    positionally, that is zero or a finite number of magnitude at least
    10^-6 and below 10^21, is formatted exactly as its decimal string
    representation is. *)
Theorem formatNumber_positional_number (x : JsNumber) (decimal : string) :
  rendered_positionally x →
  decimal_string x = Some decimal →
  formatNumber (VNum (NR := js_numbers) x)
  = formatNumber (VStr (NR := js_numbers) decimal).
Proof.
  intros Hx Hd. unfold formatNumber. cbn [toString Number_toString js_numbers].
  f_equal. destruct x as [| |negative|negative digits n]; cbn in Hx, Hd;
    try contradiction.
  - injection Hd as <-. reflexivity.
  - injection Hd as <-. cbn [JsNumber_toString].
    rewrite unsigned_toString_positional by exact Hx. reflexivity.
Qed.

(** With an integer part of digits and at most three characters behind the
    decimal point, only the integer part receives separators. *)
Lemma formatNumber_decimal int frac :
  all_digits int = true →
  String.length frac ≤ 3 →
  formatNumber (VStr (int +:+ "." +:+ frac))
  = inr (group_thousands int +:+ "." +:+ frac).
Proof.
  intros Hd Hlen. rewrite formatNumber_VStr, replace_decimal by assumption.
  reflexivity.
Qed.

(** C4. The specification's own example is formatted as stated, but a
    fractional part of four digits receives a separator of its own: the
    lookahead of the pattern is satisfied inside the fraction as well. *)
Theorem formatNumber_separates_long_fraction :
  formatNumber (VStr "1234567.89") = inr "1,234,567.89"
  ∧ formatNumber (VStr "1234.5678") = inr "1,234.5,678".
Proof. split; reflexivity. Qed.

(** ** The world-price fetcher *)

(** C3, as the code has it.  Every error raised inside the fetcher leaves
    it as a failure tagged ["World Gold"]: a transport error carries the
    upstream status and description when the error has a response (and
    [undefined] twice when it has none), every other error, a null body
    among them, carries the generic message.  A body that is an object or a
    text raises nothing: the fetcher returns the [price] field as it is,
    [undefined] when the field is missing. *)
Theorem world_outcome_cases env :
  match goldapi_response env with
  | inl (AxiosError (Some r)) =>
      world_outcome env =
        inl (GoldPriceError
               ("API Error: " +:+ Number_toString (status r) +:+ " - "
                +:+ statusText r)
               "World Gold")
  | inl (AxiosError None) =>
      world_outcome env =
        inl (GoldPriceError "API Error: undefined - undefined" "World Gold")
  | inl _ | inr BodyNull =>
      world_outcome env =
        inl (GoldPriceError "Failed to fetch world gold price" "World Gold")
  | inr (BodyText _) => world_outcome env = inr VUndefined
  | inr (BodyObject fields) =>
      world_outcome env = inr (default VUndefined (fields !! "price"))
  end.
Proof.
  rewrite world_outcome_eq.
  destruct (goldapi_response env) as [[[r|]| | |]|[| |]]; reflexivity.
Qed.

(** ** The BTMC fetcher: field resolution *)

Lemma slot_empty_truthy f i item :
  slot_empty f i item → truthy (item !! slot_key f i) = false.
Proof. intros [-> | ->]; reflexivity. Qed.

Lemma js_or_skip a b : truthy a = false → js_or a b = b.
Proof. unfold js_or. intros ->. reflexivity. Qed.

Lemma js_or_take v b : v ≠ "" → js_or (Some v) b = Some v.
Proof.
  intros Hv. unfold js_or, truthy.
  destruct (String.eqb_spec v ""); [contradiction|reflexivity].
Qed.

(** C5. Each field resolves to the value of its first non-empty slot: if
    slot [i] of field [f] holds a non-empty value and the slots before it
    are absent or empty, that value is the field's, whatever the other
    fields' slots and this field's later slots hold.  A buy price present
    only under ['@pb_3'] is the instance [f = FBuyPrice], [i = 3]. *)
Theorem resolve_first_nonempty f item i v :
  1 ≤ i ≤ 5 →
  (∀ j, 1 ≤ j < i → slot_empty f j item) →
  item !! slot_key f i = Some v →
  v ≠ "" →
  resolve f item = Some v.
Proof.
  intros Hi Hbefore Hslot Hv.
  assert (Hskip : ∀ j, 1 ≤ j < i → truthy (item !! slot_key f j) = false)
    by (intros j Hj; apply slot_empty_truthy, Hbefore, Hj).
  destruct i as [|[|[|[|[|[|i]]]]]]; try lia;
    try pose proof (Hskip 1 ltac:(lia)) as H1;
    try pose proof (Hskip 2 ltac:(lia)) as H2;
    try pose proof (Hskip 3 ltac:(lia)) as H3;
    try pose proof (Hskip 4 ltac:(lia)) as H4;
    clear Hskip Hbefore Hi;
    destruct f; cbn in *;
    unfold item_name, item_karat, item_purity, item_buyPrice, item_sellPrice;
    rewrite ?(js_or_skip _ _ H1), ?(js_or_skip _ _ H2), ?(js_or_skip _ _ H3),
      ?(js_or_skip _ _ H4), Hslot, ?js_or_take by exact Hv;
    reflexivity.
Qed.

(** The value a field resolves to depends on that field's five slots only. *)
Lemma resolve_independent f item item' :
  (∀ i, 1 ≤ i ≤ 5 → item !! slot_key f i = item' !! slot_key f i) →
  resolve f item = resolve f item'.
Proof.
  intros H.
  pose proof (H 1 ltac:(lia)) as H1. pose proof (H 2 ltac:(lia)) as H2.
  pose proof (H 3 ltac:(lia)) as H3. pose proof (H 4 ltac:(lia)) as H4.
  pose proof (H 5 ltac:(lia)) as H5. clear H.
  destruct f; cbn in *;
    unfold item_name, item_karat, item_purity, item_buyPrice, item_sellPrice;
    rewrite H1, H2, H3, H4, H5; reflexivity.
Qed.

(** When the first four slots are absent or empty the field is whatever the
    fifth slot is: [undefined] when it is absent, the empty string when it
    is present and empty. *)
Lemma resolve_falls_to_fifth f item :
  (∀ i, 1 ≤ i ≤ 4 → slot_empty f i item) →
  resolve f item = item !! slot_key f 5.
Proof.
  intros H.
  pose proof (slot_empty_truthy _ _ _ (H 1 ltac:(lia))) as H1.
  pose proof (slot_empty_truthy _ _ _ (H 2 ltac:(lia))) as H2.
  pose proof (slot_empty_truthy _ _ _ (H 3 ltac:(lia))) as H3.
  pose proof (slot_empty_truthy _ _ _ (H 4 ltac:(lia))) as H4. clear H.
  destruct f; cbn in *;
    unfold item_name, item_karat, item_purity, item_buyPrice, item_sellPrice;
    rewrite (js_or_skip _ _ H1), (js_or_skip _ _ H2), (js_or_skip _ _ H3),
      (js_or_skip _ _ H4); reflexivity.
Qed.

(** ** The DOJI fetcher *)

Lemma filter_sublist_of {A} (p : A → bool) (l : list A) :
  sublist (List.filter p l) l.
Proof.
  induction l as [|x l IH]; cbn; [constructor|].
  destruct (p x); constructor; exact IH.
Qed.

Lemma filter_throwing_total {A} (p : A → Result bool) (q : A → bool) l :
  (∀ x, In x l → p x = inr (q x)) →
  filter_throwing p l = inr (List.filter q l).
Proof.
  induction l as [|x l IH]; intros H; [reflexivity|].
  cbn. rewrite H by (left; reflexivity). cbn [and_then].
  rewrite IH by (intros; apply H; right; assumption). cbn [and_then].
  destruct (q x); reflexivity.
Qed.

Lemma filter_throwing_error {A} (p : A → Result bool) l e :
  filter_throwing p l = inl e → ∃ x, In x l ∧ p x = inl e.
Proof.
  induction l as [|x l IH]; cbn; [discriminate|].
  unfold and_then at 1. destruct (p x) eqn:Hx.
  - intros [= <-]. eauto.
  - unfold and_then. destruct (filter_throwing p l); [|discriminate].
    intros [= <-]. destruct IH as (y & Hy & Hpy); eauto.
Qed.

Lemma filter_throwing_success {A} (p : A → Result bool) l kept :
  filter_throwing p l = inr kept → ∀ x, In x l → ∃ b, p x = inr b.
Proof.
  revert kept. induction l as [|x l IH]; intros kept H y Hin; [destruct Hin|].
  cbn in H. unfold and_then in H.
  destruct (p x) as [|b] eqn:Hx; [discriminate|].
  destruct (filter_throwing p l) as [|kept'] eqn:Hl; [discriminate|].
  destruct Hin as [<-|Hin]; eauto.
Qed.

Lemma name_includes_named row needle :
  row_named row → name_includes row needle = inr (name_has row needle).
Proof.
  intros (a & name & Ha & Hn). unfold name_includes, name_has.
  rewrite Ha, Hn. reflexivity.
Qed.

Lemma name_includes_error row needle e :
  name_includes row needle = inl e → ¬ row_named row ∧ ∃ m, e = TypeError m.
Proof.
  unfold name_includes, row_named.
  destruct (attrs row) as [a|]; [destruct (Name a) as [name|] eqn:Hname|];
    intros [= <-]; try discriminate; (split; [|eauto]).
  - intros (a' & name & [= <-] & Hn). congruence.
  - intros (a' & name & Ha & _). discriminate Ha.
Qed.

Lemma name_has_contains row needle :
  name_has row needle = true ↔ name_contains row needle.
Proof.
  unfold name_has, name_contains. split.
  - destruct (attrs row) as [a|]; [|discriminate].
    destruct (Name a) as [name|] eqn:Hn; [|discriminate]. eauto.
  - intros (a & name & -> & -> & H). exact H.
Qed.

Lemma is_brand_row_named row :
  row_named row → is_brand_row row = inr (name_has row "DOJI").
Proof. apply name_includes_named. Qed.

Lemma is_purity_row_named row :
  row_named row →
  is_purity_row row = inr (name_has row "24k" || name_has row "9999").
Proof.
  intros H. unfold is_purity_row. rewrite !name_includes_named by exact H.
  cbn [and_then]. destruct (name_has row "24k"); reflexivity.
Qed.

Lemma is_brand_row_error row e :
  is_brand_row row = inl e → ¬ row_named row ∧ ∃ m, e = TypeError m.
Proof. apply name_includes_error. Qed.

Lemma is_purity_row_error row e :
  is_purity_row row = inl e → ¬ row_named row ∧ ∃ m, e = TypeError m.
Proof.
  unfold is_purity_row, and_then.
  destruct (name_includes row "24k") as [e'|b] eqn:H24.
  - intros [= <-]. eapply name_includes_error; eauto.
  - destruct b; [discriminate|]. apply name_includes_error.
Qed.

Lemma doji_block_text row :
  row_priced row → doji_block row = inr (doji_row_text row).
Proof.
  intros (a & buy & sell & Ha & Hb & Hs). unfold doji_block, doji_row_text.
  rewrite Ha, Hb, Hs. reflexivity.
Qed.

Lemma doji_block_error row e :
  doji_block row = inl e → ¬ row_priced row ∧ ∃ m, e = TypeError m.
Proof.
  unfold doji_block, row_priced. destruct (attrs row) as [a|].
  - intros H. split; [|eapply price_block_error; eauto].
    intros (a' & buy & sell & [= <-] & Hb & Hs).
    rewrite Hb, Hs in H. discriminate H.
  - intros [= <-]. split; [|eauto].
    intros (a' & buy & sell & Ha & _). discriminate Ha.
Qed.

Lemma first_Row_error tables e :
  first_Row tables = inl e → ∃ m, e = TypeError m.
Proof.
  unfold first_Row. destruct tables as [[|t rest]|]; try (intros [= <-]; eauto).
  destruct (Row t); [discriminate|]. intros [= <-]. eauto.
Qed.

Lemma first_Row_without_table tables :
  without_table tables → ∃ m, first_Row tables = inl (TypeError m).
Proof. intros [-> | ->]; cbn; eauto. Qed.

(** The rows the parser reads from a collection are those of its first
    table. *)
Lemma first_Row_first_table t rest :
  first_Row (Some (t :: rest)) = first_Row (Some [t]).
Proof. reflexivity. Qed.

(** Every error raised while the rows are read is a [TypeError]. *)
Lemma doji_prices_error data e :
  doji_prices data = inl e → ∃ m, e = TypeError m.
Proof.
  unfold doji_prices, read_GoldList.
  destruct (GoldList data) as [gl|]; cbn [and_then]; [|intros [= <-]; eauto].
  destruct (first_Row (DGPlist gl)) as [e1|rows1] eqn:H1; cbn [and_then];
    [intros [= <-]; eapply first_Row_error; eauto|].
  destruct (filter_throwing is_brand_row rows1) as [e2|kept1] eqn:H2;
    cbn [and_then].
  { intros [= <-]. apply filter_throwing_error in H2 as (x & _ & Hx).
    eapply is_brand_row_error; eauto. }
  destruct (map_throwing doji_block kept1) as [e3|blocks1] eqn:H3; cbn [and_then].
  { intros [= <-]. apply map_throwing_error in H3 as (x & _ & Hx).
    eapply doji_block_error; eauto. }
  destruct (first_Row (JewelryList gl)) as [e4|rows2] eqn:H4; cbn [and_then];
    [intros [= <-]; eapply first_Row_error; eauto|].
  destruct (filter_throwing is_purity_row rows2) as [e5|kept2] eqn:H5;
    cbn [and_then].
  { intros [= <-]. apply filter_throwing_error in H5 as (x & _ & Hx).
    eapply is_purity_row_error; eauto. }
  destruct (map_throwing doji_block kept2) as [e6|blocks2] eqn:H6; cbn [and_then].
  { intros [= <-]. apply map_throwing_error in H6 as (x & _ & Hx).
    eapply doji_block_error; eauto. }
  discriminate.
Qed.

(** A successful reading has found a first table with rows in both
    collections. *)
Lemma doji_prices_success data text :
  doji_prices data = inr text →
  ∃ gl rows1 rows2,
    GoldList data = Some gl
    ∧ first_Row (DGPlist gl) = inr rows1
    ∧ first_Row (JewelryList gl) = inr rows2.
Proof.
  unfold doji_prices, read_GoldList.
  destruct (GoldList data) as [gl|]; cbn [and_then]; [|discriminate].
  destruct (first_Row (DGPlist gl)) as [e1|rows1] eqn:H1; cbn [and_then];
    [discriminate|].
  destruct (filter_throwing is_brand_row rows1) as [e2|kept1]; cbn [and_then];
    [discriminate|].
  destruct (map_throwing doji_block kept1); cbn [and_then]; [discriminate|].
  destruct (first_Row (JewelryList gl)) as [e4|rows2] eqn:H2; cbn [and_then];
    [discriminate|].
  intros _. exists gl, rows1, rows2. auto.
Qed.

Lemma doji_outcome_parsed env xml data :
  doji_response env = inr xml →
  xml_parse env xml = inr data →
  doji_outcome env
  = after_catch "Failed to fetch DOJI prices" "DOJI" (doji_prices data).
Proof.
  intros Hresp Hparse. rewrite doji_outcome_eq, Hresp, Hparse. reflexivity.
Qed.

Lemma doji_outcome_unreadable env xml data :
  doji_response env = inr xml →
  xml_parse env xml = inr data →
  (∀ text, doji_prices data ≠ inr text) →
  doji_outcome env = inl (GoldPriceError "Failed to fetch DOJI prices" "DOJI").
Proof.
  intros Hresp Hparse Hfail. rewrite (doji_outcome_parsed env xml data Hresp Hparse).
  destruct (doji_prices data) as [e|text] eqn:Hp; [|exfalso; eapply Hfail; eauto].
  destruct (doji_prices_error data e Hp) as [m ->]. reflexivity.
Qed.

(** The block for well-formed first tables. *)
Lemma doji_prices_well_formed data gl rows1 rows2 :
  GoldList data = Some gl →
  first_Row (DGPlist gl) = inr rows1 →
  first_Row (JewelryList gl) = inr rows2 →
  (∀ row, In row rows1 → row_named row) →
  (∀ row, In row rows2 → row_named row) →
  (∀ row, In row rows1 → name_has row "DOJI" = true → row_priced row) →
  (∀ row, In row rows2 → name_has row "24k" || name_has row "9999" = true →
          row_priced row) →
  doji_prices data =
    inr (Js.join Js.LF
           (map doji_row_text (List.filter (λ row, name_has row "DOJI") rows1))
         +:+ Js.LF
         +:+ Js.join Js.LF
               (map doji_row_text
                  (List.filter (λ row, name_has row "24k" || name_has row "9999")
                     rows2))).
Proof.
  intros Hgl H1 H2 Hn1 Hn2 Hp1 Hp2. unfold doji_prices, read_GoldList.
  rewrite Hgl. cbn [and_then]. rewrite H1. cbn [and_then].
  rewrite (filter_throwing_total is_brand_row (λ row, name_has row "DOJI"))
    by (intros row Hin; apply is_brand_row_named, Hn1, Hin).
  cbn [and_then].
  rewrite (map_throwing_total doji_block doji_row_text).
  2:{ intros row Hin. apply filter_In in Hin as [Hin Hkeep].
      apply doji_block_text, Hp1; assumption. }
  cbn [and_then]. rewrite H2. cbn [and_then].
  rewrite (filter_throwing_total is_purity_row
             (λ row, name_has row "24k" || name_has row "9999"))
    by (intros row Hin; apply is_purity_row_named, Hn2, Hin).
  cbn [and_then].
  rewrite (map_throwing_total doji_block doji_row_text).
  2:{ intros row Hin. apply filter_In in Hin as [Hin Hkeep].
      apply doji_block_text, Hp2; assumption. }
  reflexivity.
Qed.

(** C6, as the code has it.  The rows read are those of the first table of
    each collection.  When every such row carries a name and every row
    that passes a filter carries both prices, the DOJI block consists of
    the rendered rows [brand] followed by the rendered rows [purity]:
    [brand] holds exactly the rows of the first table of the first
    collection whose name contains ["DOJI"], [purity] exactly the rows of
    the first table of the second collection whose name contains ["24k"]
    or ["9999"], each in the order of its table; a row is rendered with
    its buy line before its sell line, both prices passed through the
    formatter, which on a string of digits, also with up to three
    characters behind a decimal point, is thousands grouping of the
    digits. *)
Theorem doji_rows_in_output env xml data gl rows1 rows2 :
  doji_response env = inr xml →
  xml_parse env xml = inr data →
  GoldList data = Some gl →
  first_Row (DGPlist gl) = inr rows1 →
  first_Row (JewelryList gl) = inr rows2 →
  (∀ row, In row rows1 ∨ In row rows2 → row_named row) →
  (∀ row, In row rows1 → name_contains row "DOJI" → row_priced row) →
  (∀ row, In row rows2 →
          name_contains row "24k" ∨ name_contains row "9999" →
          row_priced row) →
  ∃ brand purity : list DojiRow,
    doji_outcome env =
      inr (Js.join Js.LF (map doji_row_text brand) +:+ Js.LF
           +:+ Js.join Js.LF (map doji_row_text purity))
    ∧ (∀ row, In row brand ↔ In row rows1 ∧ name_contains row "DOJI")
    ∧ (∀ row, In row purity ↔
              In row rows2
              ∧ (name_contains row "24k" ∨ name_contains row "9999"))
    ∧ sublist brand rows1
    ∧ sublist purity rows2
    ∧ (∀ row a name buy sell,
         attrs row = Some a → Name a = Some name →
         Buy a = Some buy → Sell a = Some sell →
         doji_row_text row =
           "- " +:+ name +:+ ":" +:+ Js.LF
           +:+ "  Mua: " +:+ Pattern.replace buy +:+ " VND" +:+ Js.LF
           +:+ "  Bán: " +:+ Pattern.replace sell +:+ " VND")
    ∧ (∀ digits, all_digits digits = true →
                 Pattern.replace digits = group_thousands digits)
    ∧ (∀ int frac, all_digits int = true → String.length frac ≤ 3 →
                   Pattern.replace (int +:+ "." +:+ frac)
                   = group_thousands int +:+ "." +:+ frac).
Proof.
  intros Hresp Hparse Hgl H1 H2 Hnamed Hp1 Hp2.
  exists (List.filter (λ row, name_has row "DOJI") rows1),
    (List.filter (λ row, name_has row "24k" || name_has row "9999") rows2).
  split.
  { rewrite (doji_outcome_parsed env xml data Hresp Hparse).
    rewrite (doji_prices_well_formed data gl rows1 rows2 Hgl H1 H2).
    - reflexivity.
    - intros row Hin. apply Hnamed. left. exact Hin.
    - intros row Hin. apply Hnamed. right. exact Hin.
    - intros row Hin Hhas. apply Hp1; [exact Hin|].
      apply name_has_contains, Hhas.
    - intros row Hin Hhas. apply Hp2; [exact Hin|].
      apply orb_true_iff in Hhas as [H|H]; [left|right];
        apply name_has_contains, H. }
  split; [intros row; rewrite filter_In, name_has_contains; reflexivity|].
  split.
  { intros row. rewrite filter_In, orb_true_iff, !name_has_contains.
    reflexivity. }
  split; [apply filter_sublist_of|].
  split; [apply filter_sublist_of|].
  split.
  { intros row a name buy sell Ha Hn Hb Hs. unfold doji_row_text.
    rewrite Ha, Hn, Hb, Hs. reflexivity. }
  split; [apply replace_digits|apply replace_decimal].
Qed.

(** C10. Only the first table of each collection is read: with a first
    table in both collections, the fetch ends as it does on the payload
    cut down to those two tables, so that rows of later tables contribute
    neither to the block nor to a failure; with a collection that is
    missing or has no table, or without the root element, the fetch fails
    with the generic failure tagged ["DOJI"]. *)
Theorem doji_first_tables_only env xml data :
  doji_response env = inr xml →
  xml_parse env xml = inr data →
  (∀ gl t1 rest1 t2 rest2,
      GoldList data = Some gl →
      DGPlist gl = Some (t1 :: rest1) →
      JewelryList gl = Some (t2 :: rest2) →
      doji_prices data = doji_prices (first_tables t1 t2)
      ∧ doji_outcome env
        = after_catch "Failed to fetch DOJI prices" "DOJI"
            (doji_prices (first_tables t1 t2)))
  ∧ (∀ gl, GoldList data = Some gl →
           without_table (DGPlist gl) ∨ without_table (JewelryList gl) →
           doji_outcome env
           = inl (GoldPriceError "Failed to fetch DOJI prices" "DOJI"))
  ∧ (GoldList data = None →
     doji_outcome env = inl (GoldPriceError "Failed to fetch DOJI prices" "DOJI")).
Proof.
  intros Hresp Hparse. split; [|split].
  - intros gl t1 rest1 t2 rest2 Hgl H1 H2.
    assert (Hcut : doji_prices data = doji_prices (first_tables t1 t2)).
    { unfold doji_prices, read_GoldList, first_tables. rewrite Hgl.
      cbn [GoldList DGPlist JewelryList and_then]. rewrite H1, H2.
      rewrite !first_Row_first_table. reflexivity. }
    split; [exact Hcut|].
    rewrite (doji_outcome_parsed env xml data Hresp Hparse), Hcut. reflexivity.
  - intros gl Hgl Hno.
    apply (doji_outcome_unreadable env xml data Hresp Hparse).
    intros text Hp.
    destruct (doji_prices_success data text Hp)
      as (gl' & rows1 & rows2 & Hgl' & Hr1 & Hr2).
    rewrite Hgl in Hgl'. injection Hgl' as <-.
    destruct Hno as [Hno|Hno];
      destruct (first_Row_without_table _ Hno) as [m Hm]; congruence.
  - intros Hgl. apply (doji_outcome_unreadable env xml data Hresp Hparse).
    intros text Hp.
    destruct (doji_prices_success data text Hp) as (gl' & _ & _ & Hgl' & _).
    congruence.
Qed.

(** ** The BTMC fetcher: unresolved prices *)

Lemma btmc_block_unresolved item f :
  f = FBuyPrice ∨ f = FSellPrice →
  resolve f item = None →
  ∃ message, btmc_block item = inl (TypeError message).
Proof.
  intros Hf Hres. unfold btmc_block, price_block, and_then.
  destruct Hf as [-> | ->]; cbn [resolve] in Hres; rewrite Hres; cbn [of_field].
  - cbn. eauto.
  - destruct (formatNumber (of_field (item_buyPrice item))) as [e|b] eqn:Hb.
    + destruct (formatNumber_error _ _ Hb) as [m ->]. eauto.
    + cbn. eauto.
Qed.

(** C9, as the code has it.  A kept record whose buy price (or sell price)
    is unresolved, that is, whose first four slots are absent or empty and
    whose fifth slot is absent, makes the whole BTMC fetch fail with the
    generic failure, whatever the other records hold. *)
Theorem btmc_unresolved_price_fails env body records item f :
  btmc_response env = inr body →
  data_records body = inr records →
  In item records →
  keep_item item = true →
  f = FBuyPrice ∨ f = FSellPrice →
  (∀ i, 1 ≤ i ≤ 4 → slot_empty f i item) →
  item !! slot_key f 5 = None →
  btmc_outcome env = inl (GoldPriceError "Failed to fetch BTMC prices" "BTMC").
Proof.
  intros Hresp Hrecords Hin Hkeep Hf Hempty Hfifth.
  rewrite btmc_outcome_eq, Hresp. unfold btmc_prices.
  rewrite Hrecords. cbn [and_then].
  assert (Hres : resolve f item = None)
    by (rewrite resolve_falls_to_fifth by exact Hempty; exact Hfifth).
  destruct (btmc_block_unresolved item f Hf Hres) as [m Hblock].
  assert (Hin' : In item (List.filter keep_item records))
    by (apply filter_In; split; assumption).
  destruct (map_throwing_fails btmc_block _ item _ Hin' Hblock)
    as (e' & -> & y & _ & Hy).
  cbn [and_then].
  unfold btmc_block in Hy. apply price_block_error in Hy as [m' ->].
  reflexivity.
Qed.

(** ** The cycle *)

Lemma fetched_app (tr1 tr2 : Trace) : fetched (tr1 ++ tr2)%list = (fetched tr1 ++ fetched tr2)%list.
Proof. apply omap_app. Qed.

Lemma attempts_app (tr1 tr2 : Trace) : attempts (tr1 ++ tr2)%list = (attempts tr1 ++ attempts tr2)%list.
Proof. apply omap_app. Qed.

Lemma delivered_app (tr1 tr2 : Trace) :
  delivered (tr1 ++ tr2)%list = (delivered tr1 ++ delivered tr2)%list.
Proof. apply omap_app. Qed.

Lemma fetched_requests srcs : fetched (map HttpGet srcs) = srcs.
Proof. induction srcs as [|s l IH]; cbn; [|rewrite <- IH at 2]; reflexivity. Qed.

Lemma attempts_requests srcs : attempts (map HttpGet srcs) = [].
Proof. induction srcs as [|s l IH]; [reflexivity|exact IH]. Qed.

Lemma delivered_requests srcs : delivered (map HttpGet srcs) = [].
Proof. induction srcs as [|s l IH]; [reflexivity|exact IH]. Qed.

(** The [catch] clause does nothing for an error that is no source
    failure. *)
Lemma cycle_catch_other e env tr :
  (∀ m s, e ≠ GoldPriceError m s) → cycle_catch e env tr = (tr, inr tt).
Proof. destruct e; intros H; try reflexivity. exfalso. eapply H; eauto. Qed.

(** The cycle when the fetch of [src] is the first thing to fail. *)
Lemma run_cycle_failure env src message source :
  reaches src env →
  failure_of src env = Some (GoldPriceError message source) →
  run_cycle env =
    sendMessage (warning source message) env (map HttpGet (sources_through src)).
Proof.
  intros Hreach Hfail. rewrite run_cycle_eq.
  destruct src; cbn [reaches failure_of] in *.
  - destruct (world_outcome env); [|discriminate].
    injection Hfail as ->. reflexivity.
  - destruct Hreach as (price & text & -> & ->).
    destruct (doji_outcome env); [|discriminate].
    injection Hfail as ->. reflexivity.
  - destruct Hreach as ((price & text & -> & ->) & dojiPrices & ->).
    destruct (btmc_outcome env); [|discriminate].
    injection Hfail as ->. reflexivity.
Qed.

Lemma failure_of_tagged env src e :
  failure_of src env = Some e → ∃ message, e = GoldPriceError message (source_name src).
Proof.
  destruct src; cbn [failure_of source_name].
  - destruct (world_outcome env) eqn:H; [|discriminate].
    intros [= <-]. eapply world_outcome_failure; eauto.
  - destruct (doji_outcome env) eqn:H; [|discriminate].
    intros [= <-]. eapply doji_outcome_failure; eauto.
  - destruct (btmc_outcome env) eqn:H; [|discriminate].
    intros [= <-]. eapply btmc_outcome_failure; eauto.
Qed.

(** C1, as the code has it.  The sources are requested one after another,
    world price, DOJI, BTMC, and the first fetch to fail ends the cycle:
    the sources up to the failed one have been requested, the later ones
    are not, and nothing is handed to the notifier except the warning that
    names the failed source. *)
Theorem first_failure_ends_cycle env src e :
  reaches src env →
  failure_of src env = Some e →
  ∃ message,
    e = GoldPriceError message (source_name src)
    ∧ fetched (run_cycle env).1 = sources_through src
    ∧ (attempts (run_cycle env).1 = [warning (source_name src) message]
       ∨ attempts (run_cycle env).1 = []).
Proof.
  intros Hreach Hfail.
  destruct (failure_of_tagged env src e Hfail) as [message ->].
  exists message. split; [reflexivity|].
  rewrite (run_cycle_failure env src message (source_name src) Hreach Hfail).
  destruct (sendMessage_trace (warning (source_name src) message) env
              (map HttpGet (sources_through src)))
    as (sent & result & -> & Hf & Ha & _).
  cbn [fst]. rewrite fetched_app, attempts_app, fetched_requests, attempts_requests, Hf.
  split; [apply app_nil_r|]. cbn [app]. destruct Ha as [-> | ->]; auto.
Qed.

(** Every cycle is of one of three kinds: some fetch is the first to fail,
    the fetched world price cannot be formatted, or all three fetches
    succeed. *)
Lemma cycle_cases env :
  (∃ src message,
      reaches src env
      ∧ failure_of src env = Some (GoldPriceError message (source_name src)))
  ∨ (∃ price e, world_outcome env = inr price ∧ formatNumber price = inl e)
  ∨ (∃ price w d b,
        world_outcome env = inr price ∧ formatNumber price = inr w
        ∧ doji_outcome env = inr d ∧ btmc_outcome env = inr b).
Proof.
  destruct (world_outcome env) as [e|price] eqn:Hw.
  { left. destruct (world_outcome_failure env e Hw) as [m ->].
    exists WorldGold, m. cbn. rewrite Hw. auto. }
  destruct (formatNumber price) as [e|w] eqn:Hfmt.
  { right. left. eauto. }
  assert (Hok : world_price_ok env) by (exists price, w; auto).
  destruct (doji_outcome env) as [e|d] eqn:Hd.
  { left. destruct (doji_outcome_failure env e Hd) as [m ->].
    exists DOJI, m. cbn. rewrite Hd. auto. }
  destruct (btmc_outcome env) as [e|b] eqn:Hb.
  { left. destruct (btmc_outcome_failure env e Hb) as [m ->].
    exists BTMC, m. cbn. rewrite Hb. eauto. }
  right. right. exists price, w, d, b. auto.
Qed.

Lemma run_cycle_unformattable env price e :
  world_outcome env = inr price →
  formatNumber price = inl e →
  run_cycle env = ([HttpGet WorldGold], inr tt).
Proof.
  intros Hw Hfmt. rewrite run_cycle_eq, Hw, Hfmt.
  destruct (formatNumber_error _ _ Hfmt) as [m ->]. reflexivity.
Qed.

Lemma run_cycle_success env price w d b :
  world_outcome env = inr price →
  formatNumber price = inr w →
  doji_outcome env = inr d →
  btmc_outcome env = inr b →
  (run_cycle env).1 =
    (sendMessage (report (clock env) w d b) env
       (map HttpGet (sources_through BTMC))).1.
Proof.
  intros Hw Hfmt Hd Hb. rewrite run_cycle_eq, Hw, Hfmt, Hd, Hb.
  cbn [sources_through map].
  destruct (sendMessage_trace (report (clock env) w d b) env
              [HttpGet WorldGold; HttpGet DOJI; HttpGet BTMC])
    as (sent & result & -> & _ & _ & _ & Hnot).
  destruct result as [e|[]]; [|reflexivity].
  rewrite cycle_catch_other by (apply (Hnot e); reflexivity). reflexivity.
Qed.

(** The trace of every cycle: the requests, then what one send appends. *)
Lemma run_cycle_trace env :
  ∃ srcs text,
    (run_cycle env).1 = map HttpGet srcs
    ∨ (run_cycle env).1 = (sendMessage text env (map HttpGet srcs)).1.
Proof.
  destruct (cycle_cases env)
    as [(src & m & Hr & Hf) | [(price & e & Hw & Hfmt) | (price & w & d & b & Hw & Hfmt & Hd & Hb)]].
  - exists (sources_through src), (warning (source_name src) m). right.
    rewrite (run_cycle_failure _ _ _ _ Hr Hf). reflexivity.
  - exists [WorldGold], "". left.
    rewrite (run_cycle_unformattable _ _ _ Hw Hfmt). reflexivity.
  - exists (sources_through BTMC), (report (clock env) w d b). right.
    apply (run_cycle_success _ _ _ _ _ Hw Hfmt Hd Hb).
Qed.

Lemma sendMessage_delivers text env srcs :
  telegram_works env →
  delivered (sendMessage text env (map HttpGet srcs)).1 = [text].
Proof.
  intros Hworks. destruct (sendMessage_works text env (map HttpGet srcs) Hworks)
    as [chatId ->].
  cbn [fst]. rewrite delivered_app, delivered_requests. reflexivity.
Qed.

Lemma sendMessage_attempted text env srcs :
  configured env →
  attempts (sendMessage text env (map HttpGet srcs)).1 = [text].
Proof.
  intros (chatId & Hid & Hne). rewrite sendMessage_run, Hid.
  destruct (String.eqb_spec chatId ""); [contradiction|].
  destruct (bot env chatId text); cbn [fst];
    rewrite attempts_app, attempts_requests; reflexivity.
Qed.

Lemma sendMessage_rejected text env srcs :
  (∀ chatId message, bot env chatId message ≠ None) →
  delivered (sendMessage text env (map HttpGet srcs)).1 = [].
Proof.
  intros Hbot. rewrite sendMessage_run.
  destruct (TELEGRAM_CHAT_ID env) as [chatId|]; [|apply delivered_requests].
  destruct (String.eqb chatId ""); [apply delivered_requests|].
  destruct (bot env chatId text) eqn:Hb; [|exfalso; eapply Hbot; eauto].
  cbn [fst]. rewrite delivered_app, delivered_requests. reflexivity.
Qed.

(** C2, as the code has it.  No cycle hands more than one message to the
    notifier.  When Telegram works and a fetched world price can be
    formatted, exactly one notification goes out: the report when all
    three fetches succeed, otherwise the warning naming the first source
    that failed.  A world price that cannot be formatted ends the cycle
    with nothing sent, and when the bot rejects every message nothing is
    delivered. *)
Theorem one_notification env :
  length (attempts (run_cycle env).1) ≤ 1
  ∧ (telegram_works env →
     (∀ price, world_outcome env = inr price →
               ∃ text, formatNumber price = inr text) →
     (∃ price w d b,
         world_outcome env = inr price ∧ formatNumber price = inr w
         ∧ doji_outcome env = inr d ∧ btmc_outcome env = inr b
         ∧ delivered (run_cycle env).1 = [report (clock env) w d b])
     ∨ (∃ src message,
           reaches src env
           ∧ failure_of src env = Some (GoldPriceError message (source_name src))
           ∧ delivered (run_cycle env).1 = [warning (source_name src) message]))
  ∧ ((∃ price e, world_outcome env = inr price ∧ formatNumber price = inl e) →
     attempts (run_cycle env).1 = [])
  ∧ ((∀ chatId message, bot env chatId message ≠ None) →
     delivered (run_cycle env).1 = []).
Proof.
  split; [|split; [|split]].
  - destruct (run_cycle_trace env) as (srcs & text & [-> | ->]).
    + rewrite attempts_requests. cbn. lia.
    + destruct (sendMessage_trace text env (map HttpGet srcs))
        as (sent & result & -> & _ & Ha & _).
      cbn [fst]. rewrite attempts_app, attempts_requests.
      destruct Ha as [-> | ->]; cbn; lia.
  - intros Hworks Hfmtok.
    destruct (cycle_cases env)
      as [(src & m & Hr & Hf) | [(price & e & Hw & Hfmt) | (price & w & d & b & Hw & Hfmt & Hd & Hb)]].
    + right. exists src, m. repeat split; try assumption.
      rewrite (run_cycle_failure _ _ _ _ Hr Hf).
      apply sendMessage_delivers, Hworks.
    + destruct (Hfmtok price Hw) as [text Htext]. congruence.
    + left. exists price, w, d, b. repeat split; try assumption.
      rewrite (run_cycle_success _ _ _ _ _ Hw Hfmt Hd Hb).
      apply sendMessage_delivers, Hworks.
  - intros (price & e & Hw & Hfmt).
    rewrite (run_cycle_unformattable _ _ _ Hw Hfmt). reflexivity.
  - intros Hbot. destruct (run_cycle_trace env) as (srcs & text & [-> | ->]).
    + apply delivered_requests.
    + apply sendMessage_rejected, Hbot.
Qed.

Lemma same_upstream_outcomes e1 e2 :
  same_upstream e1 e2 →
  world_outcome e1 = world_outcome e2
  ∧ doji_outcome e1 = doji_outcome e2
  ∧ btmc_outcome e1 = btmc_outcome e2.
Proof.
  intros (Hw & Hd & Hx & Hb).
  rewrite !world_outcome_eq, !doji_outcome_eq, !btmc_outcome_eq, Hw, Hd, Hx, Hb.
  auto.
Qed.

(** C7. Two cycles over the same upstream behaviour, each with a chat id
    configured, hand the notifier texts that differ at most in the
    timestamp: either both hand over a report, the same text around the
    clock reading of each run, or both hand over the same texts. *)
Theorem report_differs_only_in_timestamp e1 e2 :
  same_upstream e1 e2 →
  configured e1 →
  configured e2 →
  (∃ price w d b tail,
      world_outcome e1 = inr price ∧ formatNumber price = inr w
      ∧ doji_outcome e1 = inr d ∧ btmc_outcome e1 = inr b
      ∧ (∀ now, report now w d b =
                Js.LF +:+ "🕒 Gold Prices Update (" +:+ now +:+ tail)
      ∧ attempts (run_cycle e1).1 = [report (clock e1) w d b]
      ∧ attempts (run_cycle e2).1 = [report (clock e2) w d b])
  ∨ attempts (run_cycle e1).1 = attempts (run_cycle e2).1.
Proof.
  intros Hsame Hc1 Hc2.
  destruct (same_upstream_outcomes e1 e2 Hsame) as (Hw12 & Hd12 & Hb12).
  destruct (cycle_cases e1)
    as [(src & m & Hr & Hf) | [(price & e & Hw & Hfmt) | (price & w & d & b & Hw & Hfmt & Hd & Hb)]].
  - right.
    assert (Hr2 : reaches src e2).
    { destruct src; cbn [reaches world_price_ok] in *; unfold world_price_ok in *;
        rewrite <- ?Hw12, <- ?Hd12; exact Hr. }
    assert (Hf2 : failure_of src e2 = Some (GoldPriceError m (source_name src))).
    { destruct src; cbn [failure_of] in *; rewrite <- ?Hw12, <- ?Hd12, <- ?Hb12;
        exact Hf. }
    rewrite (run_cycle_failure _ _ _ _ Hr Hf), (run_cycle_failure _ _ _ _ Hr2 Hf2).
    rewrite !sendMessage_attempted by assumption. reflexivity.
  - right.
    rewrite (run_cycle_unformattable e1 _ _ Hw Hfmt).
    rewrite Hw12 in Hw. rewrite (run_cycle_unformattable e2 _ _ Hw Hfmt).
    reflexivity.
  - left. exists price, w, d, b. eexists.
    do 4 (split; [eassumption|]).
    split; [intros now; unfold report; reflexivity|]. split.
    + rewrite (run_cycle_success _ _ _ _ _ Hw Hfmt Hd Hb).
      apply sendMessage_attempted, Hc1.
    + rewrite Hw12 in Hw. rewrite Hd12 in Hd. rewrite Hb12 in Hb.
      rewrite (run_cycle_success _ _ _ _ _ Hw Hfmt Hd Hb).
      apply sendMessage_attempted, Hc2.
Qed.

End Properties.

(** * Further properties of the code *)

(** ** The formatter beyond the stated examples *)



Lemma groups_of_three_grouped s :
  all_digits s = true →
  Pattern.groups_of_three (group_thousands s) = group_starts (String.length s).
Proof.
  intros Hd. destruct s as [|a [|b [|c rest]]]; try reflexivity.
  cbn [all_digits] in Hd.
  apply andb_prop in Hd as [Ha Hd]. apply andb_prop in Hd as [Hb Hd].
  apply andb_prop in Hd as [Hc Hd].
  cbn [group_thousands String.length].
  set (m := String.length rest).
  assert (Hm : m = 0 ∨ (0 < m ∧ m mod 3 = 0) ∨ m mod 3 = 1 ∨ m mod 3 = 2).
  { pose proof (Nat.mod_upper_bound m 3 ltac:(lia)) as Hlt.
    destruct (Nat.eq_dec m 0) as [?|Hne]; [auto|].
    assert (m mod 3 = 0 ∨ m mod 3 = 1 ∨ m mod 3 = 2) as [?|[?|?]] by lia;
      auto. right. left. split; [lia|assumption]. }
  assert (Hs2 : S (S m) mod 3 = (m + 2) mod 3) by (f_equal; lia).
  assert (Hs1 : S m mod 3 = (m + 1) mod 3) by (f_equal; lia).
  assert (Hs3 : S (S (S m)) mod 3 = m mod 3).
  { replace (S (S (S m))) with (m + 1 * 3) by lia. apply Nat.Div0.mod_add. }
  unfold group_starts. rewrite Hs3.
  destruct Hm as [H0 | [[Hpos H0] | [H1 | H2]]].
  - subst m. destruct rest; [|discriminate]. cbn. rewrite Ha, Hb, Hc. reflexivity.
  - assert (E2 : (m + 2) mod 3 = 2)
      by (rewrite <- Nat.Div0.add_mod_idemp_l, H0; reflexivity).
    assert (E1 : (m + 1) mod 3 = 1)
      by (rewrite <- Nat.Div0.add_mod_idemp_l, H0; reflexivity).
    rewrite Hs2, Hs1, E2, E1, H0.
    replace (0 <? m) with true by (symmetry; apply Nat.ltb_lt; lia).
    cbn. rewrite Ha, Hb, Hc. reflexivity.
  - assert (E2 : (m + 2) mod 3 = 0)
      by (rewrite <- Nat.Div0.add_mod_idemp_l, H1; reflexivity).
    rewrite Hs2, E2, H1. cbn. rewrite Ha. cbn. rewrite andb_false_r. reflexivity.
  - assert (E2 : (m + 2) mod 3 = 1)
      by (rewrite <- Nat.Div0.add_mod_idemp_l, H2; reflexivity).
    assert (E1 : (m + 1) mod 3 = 0)
      by (rewrite <- Nat.Div0.add_mod_idemp_l, H2; reflexivity).
    rewrite Hs2, Hs1, E2, E1, H2. cbn. rewrite Ha, Hb. cbn.
    rewrite andb_false_r. reflexivity.
Qed.

(** A grouped string of digits offers the pattern no further position. *)
Lemma replace_from_grouped s : ∀ prev,
  all_digits s = true →
  Pattern.word_side prev = false ∨ group_starts (String.length s) = false →
  Pattern.replace_from prev (group_thousands s) = group_thousands s.
Proof.
  induction s as [|c rest IH]; intros prev Hd Hprev.
  - cbn. unfold Pattern.matches_at. cbn. rewrite andb_false_r. reflexivity.
  - pose proof Hd as Hd'. cbn [all_digits] in Hd'.
    apply andb_prop in Hd' as [Hc Hrest].
    assert (Hhere : Pattern.matches_at prev (group_thousands (String c rest)) = false).
    { unfold Pattern.matches_at. rewrite groups_of_three_grouped by exact Hd.
      cbn [group_thousands Pattern.head]. unfold Pattern.not_word_boundary.
      change (Pattern.word_side (Some c)) with (Js.is_word c).
      rewrite (digit_is_word c Hc).
      destruct Hprev as [-> | ->]; [reflexivity|apply andb_false_r]. }
    change (Pattern.replace_from prev (group_thousands (String c rest)))
      with ((if Pattern.matches_at prev (group_thousands (String c rest))
             then "," else "")
            +:+ String c (Pattern.replace_from (Some c)
                            ((if group_starts (String.length rest) then "," else "")
                             +:+ group_thousands rest))).
    rewrite Hhere. cbn [append group_thousands]. f_equal.
    destruct (group_starts (String.length rest)) eqn:Hg.
    + cbn [append Pattern.replace_from]. unfold Pattern.matches_at.
      rewrite groups_of_three_nondigit by reflexivity. rewrite andb_false_r.
      cbn [append]. rewrite IH by (auto; left; reflexivity). reflexivity.
    + cbn [append]. apply IH; auto.
Qed.

Lemma group_thousands_length s :
  String.length (group_thousands s)
  = String.length s + (String.length s - 1) / 3.
Proof.
  induction s as [|c rest IH]; [reflexivity|].
  cbn [group_thousands String.length].
  assert (Happ : ∀ a b, String.length (a +:+ b) = String.length a + String.length b).
  { intros a b. induction a as [|x a IHa]; [reflexivity|].
    cbn [append String.length]. rewrite IHa. reflexivity. }
  rewrite Happ, IH. set (m := String.length rest).
  replace (S m - 1) with m by lia.
  unfold group_starts.
  destruct m as [|k]; [reflexivity|].
  replace (S k - 1) with k by lia.
  pose proof (Nat.div_mod_eq (S k) 3) as E1.
  pose proof (Nat.div_mod_eq k 3) as E2.
  pose proof (Nat.mod_upper_bound (S k) 3 ltac:(lia)) as B1.
  pose proof (Nat.mod_upper_bound k 3 ltac:(lia)) as B2.
  cbn [Nat.ltb Nat.leb andb].
  destruct (Nat.eqb_spec (S k mod 3) 0) as [Hz|Hnz]; cbn [String.length]; lia.
Qed.

Lemma replace_from_no_digits s : ∀ prev,
  no_digits s = true → Pattern.replace_from prev s = s.
Proof.
  induction s as [|c rest IH]; intros prev Hn; cbn [Pattern.replace_from];
    unfold Pattern.matches_at.
  - cbn. rewrite andb_false_r. reflexivity.
  - cbn [no_digits] in Hn. apply andb_prop in Hn as [Hc Hrest].
    rewrite groups_of_three_nondigit
      by (destruct (Js.is_digit c); [discriminate|reflexivity]).
    rewrite andb_false_r. cbn [append]. rewrite IH by exact Hrest. reflexivity.
Qed.

Section Formatter.

Context {NR : NumberRepr}.


(** X2. Formatting is idempotent on integers: the grouped form of a string
    of digits is returned unchanged when it is formatted again. *)
Theorem formatNumber_idempotent_on_digits (digits : string) :
  all_digits digits = true →
  ∃ text, formatNumber (VStr digits) = inr text
          ∧ formatNumber (VStr text) = inr text.
Proof.
  intros Hd. exists (group_thousands digits).
  rewrite !formatNumber_VStr, replace_digits by exact Hd.
  split; [reflexivity|]. unfold Pattern.replace.
  rewrite replace_from_grouped by (auto; left; reflexivity). reflexivity.
Qed.

(** X3. A minus sign is no place for a separator: a negative integer is
    formatted as the sign followed by the grouped digits. *)
Theorem formatNumber_negative_integer (digits : string) :
  all_digits digits = true →
  formatNumber (VStr ("-" +:+ digits)) = inr ("-" +:+ group_thousands digits).
Proof.
  intros Hd. rewrite formatNumber_VStr. f_equal. unfold Pattern.replace.
  cbn [append Pattern.replace_from]. unfold Pattern.matches_at at 1.
  rewrite groups_of_three_nondigit by reflexivity. rewrite andb_false_r.
  cbn [append]. f_equal.
  destruct digits as [|c rest]; [reflexivity|].
  rewrite <- (append_empty_r (String c rest)) at 1.
  rewrite replace_from_run by (auto; congruence).
  cbn [Pattern.word_side]. change (Js.is_word "-") with false.
  cbn [andb append]. apply append_empty_r.
Qed.

(** X4. A string of [n] digits, [n] at least 1, receives [(n - 1) / 3]
    separators. *)
Theorem formatNumber_separator_count (digits : string) :
  all_digits digits = true →
  ∃ text, formatNumber (VStr digits) = inr text
          ∧ String.length text
            = String.length digits + (String.length digits - 1) / 3.
Proof.
  intros Hd. exists (group_thousands digits).
  rewrite formatNumber_VStr, replace_digits by exact Hd.
  split; [reflexivity|apply group_thousands_length].
Qed.

(** X5. A text without any digit passes through unchanged. *)
Theorem formatNumber_passes_text_through (s : string) :
  no_digits s = true → formatNumber (VStr s) = inr s.
Proof.
  intros Hn. rewrite formatNumber_VStr. f_equal.
  apply replace_from_no_digits, Hn.
Qed.

End Formatter.

(** ** What the filters test *)

Lemma startsWith_prefix needle : ∀ s,
  Js.startsWith needle s = true ↔ ∃ post, s = needle +:+ post.
Proof.
  induction needle as [|a needle IH]; intros s.
  - cbn. split; [eauto|reflexivity].
  - destruct s as [|b s]; cbn [Js.startsWith append].
    + split; [discriminate|]. intros [post H]. discriminate H.
    + rewrite andb_true_iff, Ascii.eqb_eq, IH. split.
      * intros [-> [post ->]]. eauto.
      * intros [post [= -> ->]]. eauto.
Qed.

Lemma includes_substring s : ∀ needle,
  Js.includes s needle = true ↔ ∃ pre post, s = pre +:+ needle +:+ post.
Proof.
  induction s as [|c s IH]; intros needle; cbn [Js.includes];
    rewrite orb_true_iff, startsWith_prefix.
  - split.
    + intros [[post H] | H]; [exists "", post; exact H|discriminate].
    + intros (pre & post & H). left.
      destruct pre as [|x pre]; [eauto|discriminate H].
  - rewrite IH. split.
    + intros [[post H] | (pre & post & ->)].
      * exists "", post. exact H.
      * exists (String c pre), post. reflexivity.
    + intros (pre & post & H). destruct pre as [|x pre].
      * left. eauto.
      * right. injection H as -> ->. eauto.
Qed.

Section Fetchers.

Context {NR : NumberRepr}.

(** X6. The three name tests are containment tests, case-sensitive and
    anywhere in the name: a DOJI row is a brand row exactly when its name
    can be split around ["DOJI"], a purity row when it can be split around
    ["24k"] or around ["9999"], and a BTMC name carries the bullion marker
    when it can be split around ["SJC"]; a record without a name does
    not. *)
Theorem filters_test_containment :
  (∀ row, is_brand_row row = inr true ↔
          ∃ a name pre post,
            attrs row = Some a ∧ Name a = Some name
            ∧ name = pre +:+ "DOJI" +:+ post)
  ∧ (∀ row, is_purity_row row = inr true ↔
            ∃ a name,
              attrs row = Some a ∧ Name a = Some name
              ∧ ((∃ pre post, name = pre +:+ "24k" +:+ post)
                 ∨ (∃ pre post, name = pre +:+ "9999" +:+ post)))
  ∧ (∀ name, name_has_SJC name = true ↔
             ∃ text pre post, name = Some text ∧ text = pre +:+ "SJC" +:+ post).
Proof.
  split; [|split].
  - intros row. unfold is_brand_row, name_includes.
    destruct (attrs row) as [a|]; [destruct (Name a) as [name|] eqn:Hname|].
    + split.
      * intros [= H]. apply includes_substring in H as (pre & post & Hs).
        exists a, name, pre, post. auto.
      * intros (a' & name' & pre & post & Ha & Hn & Hsplit).
        injection Ha as Ha. subst a'.
        assert (name' = name) by congruence. subst name'.
        f_equal. apply includes_substring. eauto.
    + split; [discriminate|].
      intros (a' & name' & pre & post & Ha & H & _).
      injection Ha as Ha. subst a'. congruence.
    + split; [discriminate|].
      intros (a' & name' & pre & post & H & _). discriminate H.
  - intros row. unfold is_purity_row, name_includes.
    destruct (attrs row) as [a|]; [destruct (Name a) as [name|] eqn:Hname|];
      cbn [and_then].
    + split.
      * intros H. exists a, name. split; [reflexivity|]. split; [exact Hname|].
        destruct (Js.includes name "24k") eqn:H24.
        -- left. apply includes_substring, H24.
        -- right. injection H as H. apply includes_substring, H.
      * intros (a' & name' & Ha & Hn & Hor).
        injection Ha as Ha. subst a'.
        assert (name' = name) by congruence. subst name'.
        destruct Hor as [H|H]; apply includes_substring in H.
        -- rewrite H. reflexivity.
        -- rewrite H. destruct (Js.includes name "24k"); reflexivity.
    + split; [discriminate|].
      intros (a' & name' & Ha & H & _).
      injection Ha as Ha. subst a'. congruence.
    + split; [discriminate|].
      intros (a' & name' & H & _). discriminate H.
  - intros [text|]; cbn [name_has_SJC].
    + rewrite includes_substring. split.
      * intros (pre & post & ->). eauto.
      * intros (text' & pre & post & [= <-] & ->). eauto.
    + split; [discriminate|]. intros (text & pre & post & H & _). discriminate H.
Qed.

(** X7. No raw error escapes a fetcher: whatever the upstream does, a
    rejected call, a document the parser rejects, a body or a row that
    lacks what the code reads, each fetcher ends with a value or with a
    failure tagged with its own source name. *)
Theorem fetchers_tag_failures env tr :
  (∀ e, (fetchWorldGoldPrice env tr).2 = inl e →
        ∃ message, e = GoldPriceError message "World Gold")
  ∧ (∀ e, (fetchDojiPrice env tr).2 = inl e →
          ∃ message, e = GoldPriceError message "DOJI")
  ∧ (∀ e, (fetchBaoTinPrice env tr).2 = inl e →
          ∃ message, e = GoldPriceError message "BTMC").
Proof.
  rewrite fetchWorldGoldPrice_run, fetchDojiPrice_run, fetchBaoTinPrice_run.
  cbn [snd]. split; [|split].
  - apply world_outcome_failure.
  - apply doji_outcome_failure.
  - apply btmc_outcome_failure.
Qed.

(** X8. How the DOJI fetch fails before any row is read.  A transport
    error keeps the upstream status and description in the message; a
    document the XML parser rejects gives the generic message. *)
Theorem doji_failures env :
  (∀ r, doji_response env = inl (AxiosError (Some r)) →
        doji_outcome env =
          inl (GoldPriceError
                 ("API Error: " +:+ Number_toString (status r) +:+ " - "
                  +:+ statusText r) "DOJI"))
  ∧ (∀ xml message,
        doji_response env = inr xml →
        xml_parse env xml = inl (Error message) →
        doji_outcome env = inl (GoldPriceError "Failed to fetch DOJI prices" "DOJI")).
Proof.
  split.
  - intros r H. rewrite doji_outcome_eq, H. reflexivity.
  - intros xml message H1 H2. rewrite doji_outcome_eq, H1, H2. reflexivity.
Qed.

(** X9. Filters that keep no row are no error: when both collections have
    a first table with rows, every row of the two tables carries a name,
    and none is a brand row or a purity row, the DOJI fetch succeeds, and
    its block is the single line break that separates the two empty
    segments. *)
Theorem doji_no_row_kept env xml data gl rows1 rows2 :
  doji_response env = inr xml →
  xml_parse env xml = inr data →
  GoldList data = Some gl →
  first_Row (DGPlist gl) = inr rows1 →
  first_Row (JewelryList gl) = inr rows2 →
  (∀ row, In row rows1 → row_named row ∧ ¬ name_contains row "DOJI") →
  (∀ row, In row rows2 →
          row_named row ∧ ¬ name_contains row "24k"
          ∧ ¬ name_contains row "9999") →
  doji_outcome env = inr Js.LF.
Proof.
  intros Hresp Hparse Hgl H1 H2 Hb Hp.
  assert (Hnil : ∀ (p : DojiRow → bool) l,
             (∀ row, In row l → p row = false) → List.filter p l = []).
  { intros p l. induction l as [|x l IH]; intros H; [reflexivity|].
    cbn. rewrite H by (left; reflexivity).
    apply IH. intros row Hin. apply H. right. exact Hin. }
  assert (Hb' : ∀ row, In row rows1 → name_has row "DOJI" = false).
  { intros row Hin. destruct (name_has row "DOJI") eqn:E; [|reflexivity].
    exfalso. apply (proj2 (Hb row Hin)), name_has_contains, E. }
  assert (Hp' : ∀ row, In row rows2 →
                       name_has row "24k" || name_has row "9999" = false).
  { intros row Hin. destruct (Hp row Hin) as (_ & N24 & N99).
    apply orb_false_iff. split.
    - destruct (name_has row "24k") eqn:E; [|reflexivity].
      exfalso. apply N24, name_has_contains, E.
    - destruct (name_has row "9999") eqn:E; [|reflexivity].
      exfalso. apply N99, name_has_contains, E. }
  rewrite (doji_outcome_parsed env xml data Hresp Hparse).
  rewrite (doji_prices_well_formed data gl rows1 rows2 Hgl H1 H2).
  - rewrite (Hnil _ _ Hb'), (Hnil _ _ Hp'). reflexivity.
  - intros row Hin. apply (Hb row Hin).
  - intros row Hin. apply (Hp row Hin).
  - intros row Hin E. rewrite (Hb' row Hin) in E. discriminate E.
  - intros row Hin E. rewrite (Hp' row Hin) in E. discriminate E.
Qed.

Lemma map_throwing_success {A B} (f : A → Result B) l ys :
  map_throwing f l = inr ys → ∀ x, In x l → ∃ y, f x = inr y.
Proof.
  revert ys. induction l as [|x l IH]; intros ys H z Hin; [destruct Hin|].
  cbn in H. unfold and_then in H.
  destruct (f x) as [|y] eqn:Hx; [discriminate|].
  destruct (map_throwing f l) as [|ys'] eqn:Hl; [discriminate|].
  destruct Hin as [<-|Hin]; eauto.
Qed.

Lemma name_includes_inr row needle b :
  name_includes row needle = inr b → row_named row.
Proof.
  unfold name_includes, row_named.
  destruct (attrs row) as [a|]; [|discriminate].
  destruct (Name a) as [name|] eqn:Hn; [|discriminate]. eauto.
Qed.

Lemma is_purity_row_inr row b : is_purity_row row = inr b → row_named row.
Proof.
  unfold is_purity_row, and_then.
  destruct (name_includes row "24k") as [|b'] eqn:H; [discriminate|].
  intros _. eapply name_includes_inr; eauto.
Qed.

Lemma doji_block_inr row text : doji_block row = inr text → row_priced row.
Proof.
  unfold doji_block, row_priced, price_block, and_then.
  destruct (attrs row) as [a|]; [|discriminate].
  destruct (Buy a) as [buy|] eqn:Hb; [|cbn; discriminate].
  destruct (Sell a) as [sell|] eqn:Hs; [|cbn; discriminate].
  intros _. exists a, buy, sell. auto.
Qed.

(** X18. Once the DOJI document has been parsed, the fetch succeeds
    exactly when the payload has everything the code reads: the root
    element, a first table with rows in both collections, a name on every
    row of these two tables, kept or not, and a buy and a sell price on
    every row that passes a filter.  In every other case it fails with the
    generic failure tagged ["DOJI"]. *)
Theorem doji_succeeds_exactly_when_well_formed env xml data :
  doji_response env = inr xml →
  xml_parse env xml = inr data →
  ((∃ text, doji_outcome env = inr text) ↔ doji_well_formed data)
  ∧ (¬ doji_well_formed data →
     doji_outcome env = inl (GoldPriceError "Failed to fetch DOJI prices" "DOJI")).
Proof.
  intros Hresp Hparse.
  assert (Hinv : ∀ text, doji_prices data = inr text → doji_well_formed data).
  { intros text. unfold doji_prices, read_GoldList.
    destruct (GoldList data) as [gl|] eqn:Hgl; cbn [and_then]; [|discriminate].
    destruct (first_Row (DGPlist gl)) as [|rows1] eqn:H1; cbn [and_then];
      [discriminate|].
    destruct (filter_throwing is_brand_row rows1) as [|kept1] eqn:F1;
      cbn [and_then]; [discriminate|].
    destruct (map_throwing doji_block kept1) as [|blocks1] eqn:M1;
      cbn [and_then]; [discriminate|].
    destruct (first_Row (JewelryList gl)) as [|rows2] eqn:H2; cbn [and_then];
      [discriminate|].
    destruct (filter_throwing is_purity_row rows2) as [|kept2] eqn:F2;
      cbn [and_then]; [discriminate|].
    destruct (map_throwing doji_block kept2) as [|blocks2] eqn:M2;
      cbn [and_then]; [discriminate|].
    intros _.
    assert (Hn1 : ∀ row, In row rows1 → row_named row).
    { intros row Hin.
      destruct (filter_throwing_success _ _ _ F1 row Hin) as [b Hb].
      eapply name_includes_inr; eauto. }
    assert (Hn2 : ∀ row, In row rows2 → row_named row).
    { intros row Hin.
      destruct (filter_throwing_success _ _ _ F2 row Hin) as [b Hb].
      eapply is_purity_row_inr; eauto. }
    rewrite (filter_throwing_total is_brand_row (λ row, name_has row "DOJI"))
      in F1 by (intros row Hin; apply is_brand_row_named, Hn1, Hin).
    rewrite (filter_throwing_total is_purity_row
               (λ row, name_has row "24k" || name_has row "9999"))
      in F2 by (intros row Hin; apply is_purity_row_named, Hn2, Hin).
    injection F1 as <-. injection F2 as <-.
    exists gl, rows1, rows2. repeat (split; [reflexivity || assumption|]).
    split; [intros row [Hin|Hin]; auto|]. split.
    - intros row Hin Hc.
      destruct (map_throwing_success _ _ _ M1 row) as [t Ht].
      + apply filter_In. split; [exact Hin|]. apply name_has_contains, Hc.
      + eapply doji_block_inr; eauto.
    - intros row Hin Hc.
      destruct (map_throwing_success _ _ _ M2 row) as [t Ht].
      + apply filter_In. split; [exact Hin|]. apply orb_true_iff.
        destruct Hc as [Hc|Hc]; [left|right]; apply name_has_contains, Hc.
      + eapply doji_block_inr; eauto. }
  assert (Hiff : (∃ text, doji_outcome env = inr text) ↔ doji_well_formed data).
  { rewrite (doji_outcome_parsed env xml data Hresp Hparse). split.
    - intros [text Ht]. destruct (doji_prices data) as [e|text'] eqn:Hp;
        [discriminate|]. eapply Hinv; eauto.
    - intros (gl & rows1 & rows2 & Hgl & H1 & H2 & Hn & Hp1 & Hp2).
      rewrite (doji_prices_well_formed data gl rows1 rows2 Hgl H1 H2).
      + cbn [after_catch]. eauto.
      + intros row Hin. apply Hn. left. exact Hin.
      + intros row Hin. apply Hn. right. exact Hin.
      + intros row Hin Hhas. apply Hp1; [exact Hin|].
        apply name_has_contains, Hhas.
      + intros row Hin Hhas. apply Hp2; [exact Hin|].
        apply orb_true_iff in Hhas as [H|H]; [left|right];
          apply name_has_contains, H. }
  split; [exact Hiff|].
  intros Hnot. apply (doji_outcome_unreadable env xml data Hresp Hparse).
  intros text Hp. apply Hnot. eapply Hinv; eauto.
Qed.

End Fetchers.

(** ** The BTMC fetcher: filtering, labels, failure *)



Section Btmc.

Context {NR : NumberRepr}.








End Btmc.

(** ** [TelegramService.sendMessage] *)

Section Sending.

Context {NR : NumberRepr}.

(** X13. [sendMessage] hands the text, unchanged, to the bot once, for the
    configured chat, and succeeds exactly when the bot delivers; the bot's
    error is rethrown with its message.  Without a chat id, unset or
    empty, the bot is not called and the call fails with
    ['TELEGRAM_CHAT_ID is not defined']. *)
Theorem sendMessage_outcome text env tr :
  ((sendMessage text env tr).2 = inr tt ↔
     ∃ chatId, TELEGRAM_CHAT_ID env = Some chatId ∧ chatId ≠ ""
               ∧ bot env chatId text = None)
  ∧ (missing (TELEGRAM_CHAT_ID env) = true →
     sendMessage text env tr
     = (tr, inl (Error "TELEGRAM_CHAT_ID is not defined")))
  ∧ (∀ chatId, TELEGRAM_CHAT_ID env = Some chatId → chatId ≠ "" →
       (bot env chatId text = None ∧
        sendMessage text env tr
        = ((tr ++ [BotSend chatId text true])%list, inr tt))
       ∨ (∃ err, bot env chatId text = Some err ∧
            sendMessage text env tr
            = ((tr ++ [BotSend chatId text false])%list, inl (Error err)))).
Proof.
  rewrite sendMessage_run. split; [|split].
  - destruct (TELEGRAM_CHAT_ID env) as [chatId|]; cbn [snd].
    + destruct (String.eqb_spec chatId "") as [->|Hne]; cbn [snd].
      * split; [discriminate|]. intros (c & [= <-] & Hc & _). contradiction.
      * destruct (bot env chatId text) as [err|] eqn:Hbot; cbn [snd].
        -- split; [discriminate|]. intros (c & [= <-] & _ & Hb). congruence.
        -- split; [eauto|reflexivity].
    + split; [discriminate|]. intros (c & H & _). discriminate H.
  - unfold missing. destruct (TELEGRAM_CHAT_ID env) as [chatId|]; [|reflexivity].
    intros ->. reflexivity.
  - intros chatId -> Hne.
    destruct (String.eqb_spec chatId ""); [contradiction|].
    destruct (bot env chatId text) as [err|]; [right; eauto|left; auto].
Qed.

End Sending.

(** ** The cycle as a whole *)

Section Cycle.

Context {NR : NumberRepr}.

Lemma sendMessage_appends text env tr :
  ∃ sent,
    (sendMessage text env tr).1 = (tr ++ sent)%list
    ∧ (sent = []
       ∨ ∃ chatId ok, sent = [BotSend chatId text ok]
                      ∧ TELEGRAM_CHAT_ID env = Some chatId).
Proof.
  rewrite sendMessage_run.
  destruct (TELEGRAM_CHAT_ID env) as [chatId|];
    [|exists []; rewrite app_nil_r; auto].
  destruct (String.eqb chatId ""); [exists []; rewrite app_nil_r; auto|].
  destruct (bot env chatId text); eexists; split; try reflexivity; right; eauto.
Qed.

Lemma sources_through_prefix src :
  sources_through src `prefix_of` [WorldGold; DOJI; BTMC]
  ∧ sources_through src ≠ [].
Proof.
  destruct src; (split; [|discriminate]).
  - exists [DOJI; BTMC]. reflexivity.
  - exists [BTMC]. reflexivity.
  - exists []. reflexivity.
Qed.

Lemma run_cycle_success_result env price w d b :
  world_outcome env = inr price →
  formatNumber price = inr w →
  doji_outcome env = inr d →
  btmc_outcome env = inr b →
  (run_cycle env).2 = inr tt.
Proof.
  intros Hw Hfmt Hd Hb. rewrite run_cycle_eq, Hw, Hfmt, Hd, Hb.
  destruct (sendMessage_trace (report (clock env) w d b) env
              [HttpGet WorldGold; HttpGet DOJI; HttpGet BTMC])
    as (sent & result & -> & _ & _ & _ & Hnot).
  destruct result as [e|[]]; [|reflexivity].
  rewrite cycle_catch_other by (apply (Hnot e); reflexivity). reflexivity.
Qed.

(** X14. The shape of every cycle's trace: first the requests, which are
    the fixed order world price, DOJI, BTMC cut off somewhere behind the
    world price, each source requested at most once; then at most one bot
    call, to the configured chat.  Nothing is requested after the bot has
    been called. *)
Theorem cycle_trace_shape env :
  ∃ srcs sent,
    (run_cycle env).1 = (map HttpGet srcs ++ sent)%list
    ∧ srcs `prefix_of` [WorldGold; DOJI; BTMC]
    ∧ srcs ≠ []
    ∧ (sent = []
       ∨ ∃ chatId text ok, sent = [BotSend chatId text ok]
                           ∧ TELEGRAM_CHAT_ID env = Some chatId).
Proof.
  destruct (cycle_cases env)
    as [(src & m & Hr & Hf) | [(price & e & Hw & Hfmt) | (price & w & d & b & Hw & Hfmt & Hd & Hb)]].
  - rewrite (run_cycle_failure _ _ _ _ Hr Hf).
    destruct (sendMessage_appends (warning (source_name src) m) env
                (map HttpGet (sources_through src))) as (sent & -> & Hsent).
    exists (sources_through src), sent.
    destruct (sources_through_prefix src) as [Hp Hne].
    split; [reflexivity|]. split; [exact Hp|]. split; [exact Hne|].
    destruct Hsent as [->|(c & ok & -> & Hc)]; [auto|right; eauto].
  - rewrite (run_cycle_unformattable _ _ _ Hw Hfmt).
    exists [WorldGold], []. split; [reflexivity|].
    split; [exists [DOJI; BTMC]; reflexivity|]. split; [discriminate|auto].
  - rewrite (run_cycle_success _ _ _ _ _ Hw Hfmt Hd Hb).
    destruct (sendMessage_appends (report (clock env) w d b) env
                (map HttpGet (sources_through BTMC))) as (sent & -> & Hsent).
    exists (sources_through BTMC), sent.
    destruct (sources_through_prefix BTMC) as [Hp Hne].
    split; [reflexivity|]. split; [exact Hp|]. split; [exact Hne|].
    destruct Hsent as [->|(c & ok & -> & Hc)]; [auto|right; eauto].
Qed.

(** X15. The cycle itself rejects only from its [catch] clause: it ends
    with an error exactly when some fetch failed and sending the warning
    failed too, and the error is then that of the send.  When all three
    fetches succeed the cycle resolves, whether or not the report could be
    sent; so does a cycle whose world price cannot be formatted. *)
Theorem cycle_rejects_only_when_warning_fails env :
  (∀ e, (run_cycle env).2 = inl e ↔
        ∃ src message,
          reaches src env
          ∧ failure_of src env = Some (GoldPriceError message (source_name src))
          ∧ (sendMessage (warning (source_name src) message) env
               (map HttpGet (sources_through src))).2 = inl e)
  ∧ (∀ price w d b,
        world_outcome env = inr price → formatNumber price = inr w →
        doji_outcome env = inr d → btmc_outcome env = inr b →
        (run_cycle env).2 = inr tt)
  ∧ (∀ price e,
        world_outcome env = inr price → formatNumber price = inl e →
        (run_cycle env).2 = inr tt).
Proof.
  split; [|split].
  - intros e. split.
    + intros Hrej.
      destruct (cycle_cases env)
        as [(src & m & Hr & Hf) | [(price & e' & Hw & Hfmt) | (price & w & d & b & Hw & Hfmt & Hd & Hb)]].
      * exists src, m. repeat split; try assumption.
        rewrite (run_cycle_failure _ _ _ _ Hr Hf) in Hrej. exact Hrej.
      * rewrite (run_cycle_unformattable _ _ _ Hw Hfmt) in Hrej. discriminate.
      * rewrite (run_cycle_success_result _ _ _ _ _ Hw Hfmt Hd Hb) in Hrej.
        discriminate.
    + intros (src & m & Hr & Hf & Hsend).
      rewrite (run_cycle_failure _ _ _ _ Hr Hf). exact Hsend.
  - apply run_cycle_success_result.
  - intros price e Hw Hfmt.
    rewrite (run_cycle_unformattable _ _ _ Hw Hfmt). reflexivity.
Qed.

(** X16. A server error of the last source, end to end: when the world
    price and DOJI have been fetched and BTMC answers with an error
    status, all three sources have been requested, and with Telegram
    working exactly one text reaches the chat, the warning that names BTMC
    and carries the status and its description; no report is sent. *)
Theorem btmc_server_error_is_reported env r :
  world_price_ok env →
  (∃ dojiPrices, doji_outcome env = inr dojiPrices) →
  btmc_response env = inl (AxiosError (Some r)) →
  telegram_works env →
  fetched (run_cycle env).1 = [WorldGold; DOJI; BTMC]
  ∧ delivered (run_cycle env).1
    = ["⚠️ Error fetching BTMC prices: API Error: "
       +:+ Number_toString (status r) +:+ " - " +:+ statusText r]
  ∧ (run_cycle env).2 = inr tt.
Proof.
  intros Hw Hd Hb Hworks.
  assert (Hr : reaches BTMC env) by (split; assumption).
  assert (Hf : failure_of BTMC env
               = Some (GoldPriceError
                         ("API Error: " +:+ Number_toString (status r) +:+ " - "
                          +:+ statusText r) (source_name BTMC))).
  { cbn [failure_of]. rewrite btmc_outcome_eq, Hb. reflexivity. }
  rewrite (run_cycle_failure _ _ _ _ Hr Hf).
  destruct (sendMessage_works
              (warning (source_name BTMC)
                 ("API Error: " +:+ Number_toString (status r) +:+ " - "
                  +:+ statusText r))
              env (map HttpGet (sources_through BTMC)) Hworks) as [chatId ->].
  cbn [fst snd]. rewrite fetched_app, delivered_app, fetched_requests,
    delivered_requests.
  repeat split.
Qed.

End Cycle.

(** ** Construction *)

Section Construction.

Context {NR : NumberRepr}.

Lemma or_empty_nonempty v :
  or_empty v ≠ "" → v = Some (or_empty v).
Proof.
  unfold or_empty, truthy. destruct v as [s|]; [|cbn; congruence].
  destruct (String.eqb s ""); cbn; [congruence|reflexivity].
Qed.

Lemma or_empty_empty v : or_empty v = "" → v = None ∨ v = Some "".
Proof.
  unfold or_empty, truthy. destruct v as [s|]; [|auto].
  destruct (String.eqb_spec s ""); [subst; auto|]. cbn. intros ->. contradiction.
Qed.

(** X17. The service is built only with all three API keys configured and
    non-empty, and then holds exactly the configured values; otherwise
    the constructor throws the configuration error, and some key is unset
    or empty. *)
Theorem GoldService_constructor_requires_all_keys get :
  match GoldService_constructor get with
  | inr service =>
      get "BTMC_API_KEY" = Some (BTMC_API_KEY service)
      ∧ get "DOJI_API_KEY" = Some (DOJI_API_KEY service)
      ∧ get "GOLD_API_TOKEN" = Some (GOLD_API_TOKEN service)
      ∧ BTMC_API_KEY service ≠ ""
      ∧ DOJI_API_KEY service ≠ ""
      ∧ GOLD_API_TOKEN service ≠ ""
  | inl e =>
      e = Error "Required API keys are not configured in environment variables"
      ∧ ∃ key, In key ["BTMC_API_KEY"; "DOJI_API_KEY"; "GOLD_API_TOKEN"]
               ∧ (get key = None ∨ get key = Some "")
  end.
Proof.
  unfold GoldService_constructor. cbv zeta.
  destruct (String.eqb_spec (or_empty (get "BTMC_API_KEY")) "") as [Hb|Hb].
  { split; [reflexivity|]. exists "BTMC_API_KEY".
    split; [left; reflexivity|apply or_empty_empty, Hb]. }
  destruct (String.eqb_spec (or_empty (get "DOJI_API_KEY")) "") as [Hd|Hd].
  { split; [reflexivity|]. exists "DOJI_API_KEY".
    split; [right; left; reflexivity|apply or_empty_empty, Hd]. }
  destruct (String.eqb_spec (or_empty (get "GOLD_API_TOKEN")) "") as [Hg|Hg].
  { split; [reflexivity|]. exists "GOLD_API_TOKEN".
    split; [right; right; left; reflexivity|apply or_empty_empty, Hg]. }
  cbn [orb BTMC_API_KEY DOJI_API_KEY GOLD_API_TOKEN].
  repeat split; try assumption; apply or_empty_nonempty; assumption.
Qed.

End Construction.

(** * The service on concrete payloads *)

#[local] Existing Instance integer_numbers.

(** ** Where the code departs from a stated property *)

(** C1 fails on the code: when the Gold API answers 500, the cycle ends
    with the warning and requests neither DOJI nor BTMC, although both
    would have answered. *)
Lemma world_failure_skips_local_sources :
  world_outcome Sample.world_down
  = inl (GoldPriceError "API Error: 500 - Internal Server Error" "World Gold")
  ∧ (∃ text, doji_outcome Sample.world_down = inr text)
  ∧ (∃ text, btmc_outcome Sample.world_down = inr text)
  ∧ fetched (run_cycle Sample.world_down).1 = [WorldGold]
  ∧ ¬ In DOJI (fetched (run_cycle Sample.world_down).1)
  ∧ ¬ In BTMC (fetched (run_cycle Sample.world_down).1).
Proof.
  split; [reflexivity|].
  split; [eexists; vm_compute; reflexivity|].
  split; [eexists; vm_compute; reflexivity|].
  split; [reflexivity|].
  split; vm_compute; intros [H|[]]; discriminate H.
Qed.

(** C2 fails on the code.  When the Gold API answers with an object that
    has no [price], formatting the price raises an error that is no source
    failure: the [catch] clause sends nothing and the cycle ends without
    handing any text to the notifier.  When all three fetches succeed and
    the bot rejects the report, no warning follows and nothing reaches the
    chat. *)
Lemma cycle_without_notification :
  attempts (run_cycle Sample.no_price).1 = []
  ∧ delivered (run_cycle Sample.no_price).1 = []
  ∧ (∃ report_text, attempts (run_cycle Sample.bot_down).1 = [report_text])
  ∧ delivered (run_cycle Sample.bot_down).1 = []
  ∧ length (delivered (run_cycle Sample.bot_down).1) ≠ 1.
Proof.
  split; [reflexivity|]. split; [reflexivity|].
  split; [eexists; vm_compute; reflexivity|].
  split; [reflexivity|]. vm_compute. discriminate.
Qed.

(** C3 fails on the code: a well-formed response object without a [price]
    field raises nothing inside the fetcher, which returns [undefined]. *)
Lemma missing_price_is_no_failure :
  goldapi_response Sample.no_price
  = inr (BodyObject {[ "error" := VStr "No data available" ]})
  ∧ world_outcome Sample.no_price = inr VUndefined
  ∧ ¬ ∃ message, world_outcome Sample.no_price
                 = inl (GoldPriceError message "World Gold").
Proof.
  split; [reflexivity|]. split; [reflexivity|].
  intros [message H]. vm_compute in H. discriminate H.
Qed.

(** C9 fails on the code: a kept record whose five buy-price slots are all
    absent or empty, the fifth holding the empty string, is rendered with
    an empty buy price, and the fetch succeeds with every kept record. *)
Lemma empty_fifth_slot_is_rendered :
  keep_item Sample.empty_fifth_item = true
  ∧ (∀ i, 1 ≤ i ≤ 5 → slot_empty FBuyPrice i Sample.empty_fifth_item)
  ∧ btmc_outcome
      (Sample.with_btmc [Sample.third_slot_item; Sample.empty_fifth_item])
    = inr ("- SJC:" +:+ Js.LF +:+ "  Mua: 8,900,000 VND" +:+ Js.LF
           +:+ "  Bán: 9,000,000 VND" +:+ Js.LF
           +:+ "- SJC:" +:+ Js.LF +:+ "  Mua:  VND" +:+ Js.LF
           +:+ "  Bán: 9,000,000 VND").
Proof.
  split; [reflexivity|]. split; [|reflexivity].
  intros i Hi.
  assert (i = 1 ∨ i = 2 ∨ i = 3 ∨ i = 4 ∨ i = 5) as [-> | [-> | [-> | [-> | ->]]]]
    by lia;
    try (left; reflexivity); right; reflexivity.
Qed.

(** C8 fails on the code: the number 10^21 is rendered with an exponent,
    and the formatter, given the number, leaves ["1e+21"] as it is, while
    it groups the digits of the decimal string representation. *)
Lemma exponent_rendering_is_not_grouped :
  decimal_string (Finite false "1" 22) = Some "1000000000000000000000"
  ∧ formatNumber (VNum (NR := js_numbers) (Finite false "1" 22)) = inr "1e+21"
  ∧ formatNumber (VStr (NR := js_numbers) "1000000000000000000000")
    = inr "1,000,000,000,000,000,000,000"
  ∧ formatNumber (VNum (NR := js_numbers) (Finite false "1" 22))
    ≠ formatNumber (VStr (NR := js_numbers) "1000000000000000000000").
Proof.
  split; [reflexivity|]. split; [reflexivity|]. split; [reflexivity|].
  vm_compute. discriminate.
Qed.

(** C6 fails on the code.  A row of the second table of the first
    collection passes the brand filter and is not in the block; a brand
    row without a sell price makes the fetch fail, so that there is no
    block for it to appear in. *)
Lemma doji_rows_outside_the_block :
  (∃ gl t1,
      GoldList Sample.doji_payload = Some gl
      ∧ DGPlist gl
        = Some [t1; Sample.table [Sample.row "DOJI HCM" "1" "2"]])
  ∧ is_brand_row (Sample.row "DOJI HCM" "1" "2") = inr true
  ∧ (∃ text, doji_outcome Sample.healthy = inr text
             ∧ Js.includes text "DOJI HCM" = false)
  ∧ is_brand_row Sample.row_without_sell = inr true
  ∧ doji_outcome (Sample.with_doji Sample.doji_payload_without_sell)
    = inl (GoldPriceError "Failed to fetch DOJI prices" "DOJI").
Proof.
  split; [eexists _, _; split; reflexivity|].
  split; [reflexivity|].
  split; [eexists; split; [vm_compute; reflexivity|reflexivity]|].
  split; reflexivity.
Qed.

(** ** The proved properties at work *)

(** The number 1234567.89 and its decimal string. *)
Lemma formatNumber_positional_number_witness :
  rendered_positionally (Finite false "123456789" 7)
  ∧ decimal_string (Finite false "123456789" 7) = Some "1234567.89"
  ∧ formatNumber (VNum (NR := js_numbers) (Finite false "123456789" 7))
    = formatNumber (VStr (NR := js_numbers) "1234567.89").
Proof.
  assert (Hx : rendered_positionally (Finite false "123456789" 7))
    by (cbn; lia).
  split; [exact Hx|]. split; [reflexivity|].
  exact (formatNumber_positional_number (Finite false "123456789" 7)
           "1234567.89" Hx eq_refl).
Defined.

Lemma healthy_telegram_works : telegram_works Sample.healthy.
Proof.
  exists "-1001". split; [reflexivity|]. split; [discriminate|].
  intros text. reflexivity.
Defined.

(** DOJI unreachable: the world price and DOJI are requested, BTMC is
    not, and the only text is the DOJI warning. *)
Lemma first_failure_ends_cycle_witness :
  reaches DOJI Sample.doji_down
  ∧ failure_of DOJI Sample.doji_down
    = Some (GoldPriceError "API Error: undefined - undefined" "DOJI")
  ∧ ∃ message,
      GoldPriceError "API Error: undefined - undefined" "DOJI"
      = GoldPriceError message (source_name DOJI)
      ∧ fetched (run_cycle Sample.doji_down).1 = sources_through DOJI
      ∧ (attempts (run_cycle Sample.doji_down).1
         = [warning (source_name DOJI) message]
         ∨ attempts (run_cycle Sample.doji_down).1 = []).
Proof.
  assert (Hr : reaches DOJI Sample.doji_down)
    by (exists (VStr "2650.37"), "2,650.37"; split; reflexivity).
  assert (Hf : failure_of DOJI Sample.doji_down
               = Some (GoldPriceError "API Error: undefined - undefined" "DOJI"))
    by reflexivity.
  split; [exact Hr|]. split; [exact Hf|].
  exact (first_failure_ends_cycle Sample.doji_down DOJI _ Hr Hf).
Defined.

(** A healthy cycle: exactly one text reaches the chat. *)
Lemma one_notification_witness :
  telegram_works Sample.healthy
  ∧ length (attempts (run_cycle Sample.healthy).1) ≤ 1
  ∧ ∃ text, delivered (run_cycle Sample.healthy).1 = [text].
Proof.
  split; [exact healthy_telegram_works|].
  destruct (one_notification Sample.healthy) as (Hmost & Hone & _).
  split; [exact Hmost|].
  destruct Hone as [(price & w & d & b & _ & _ & _ & _ & H)
                   | (src & message & _ & _ & H)].
  - exact healthy_telegram_works.
  - intros price H. vm_compute in H. injection H as <-.
    exists "2,650.37". reflexivity.
  - exists (report (clock Sample.healthy) w d b). exact H.
  - exists (warning (source_name src) message). exact H.
Defined.

(** The buy price of a record that has it under ['@pb_3'] only. *)
Lemma resolve_first_nonempty_witness :
  1 ≤ 3 ≤ 5
  ∧ (∀ j, 1 ≤ j < 3 → slot_empty FBuyPrice j Sample.third_slot_item)
  ∧ Sample.third_slot_item !! slot_key FBuyPrice 3 = Some "8900000"
  ∧ "8900000" ≠ ""
  ∧ resolve FBuyPrice Sample.third_slot_item = Some "8900000".
Proof.
  assert (Hi : 1 ≤ 3 ≤ 5) by lia.
  assert (Hbefore : ∀ j, 1 ≤ j < 3 → slot_empty FBuyPrice j Sample.third_slot_item).
  { intros j Hj. assert (j = 1 ∨ j = 2) as [-> | ->] by lia; left; reflexivity. }
  assert (Hslot : Sample.third_slot_item !! slot_key FBuyPrice 3 = Some "8900000")
    by reflexivity.
  assert (Hv : "8900000" ≠ "") by discriminate.
  repeat (split; [assumption|]).
  exact (resolve_first_nonempty FBuyPrice Sample.third_slot_item 3 "8900000"
           Hi Hbefore Hslot Hv).
Defined.

Lemma sample_first_rows_named :
  ∀ row,
    In row [Sample.row "DOJI HN" "8900000" "9000000";
            Sample.row "AVPL" "8800000" "8950000"]
    ∨ In row [Sample.row "Nhẫn 9999" "8700000" "8850000";
              Sample.row "Nữ trang 18k" "6000000" "6500000"] →
    row_named row ∧ row_priced row.
Proof.
  intros row [[<-|[<-|[]]] | [<-|[<-|[]]]];
    (split; [eexists _, _; split; reflexivity
            |eexists _, _, _; repeat split; reflexivity]).
Defined.

(** The sample DOJI payload: one brand row and one purity row survive. *)
Lemma doji_rows_in_output_witness :
  ∃ brand purity : list DojiRow,
    doji_outcome Sample.healthy =
      inr (Js.join Js.LF (map doji_row_text brand) +:+ Js.LF
           +:+ Js.join Js.LF (map doji_row_text purity))
    ∧ (∀ row, In row brand ↔
              In row [Sample.row "DOJI HN" "8900000" "9000000";
                      Sample.row "AVPL" "8800000" "8950000"]
              ∧ name_contains row "DOJI")
    ∧ (∀ row, In row purity ↔
              In row [Sample.row "Nhẫn 9999" "8700000" "8850000";
                      Sample.row "Nữ trang 18k" "6000000" "6500000"]
              ∧ (name_contains row "24k" ∨ name_contains row "9999")).
Proof.
  destruct (doji_rows_in_output Sample.healthy "<GoldList/>" Sample.doji_payload
              _ _ _ eq_refl eq_refl eq_refl eq_refl eq_refl
              (λ row H, proj1 (sample_first_rows_named row H))
              (λ row H _, proj2 (sample_first_rows_named row (or_introl H)))
              (λ row H _, proj2 (sample_first_rows_named row (or_intror H))))
    as (brand & purity & Hout & Hbrand & Hpurity & _).
  exists brand, purity. split; [exact Hout|]. split; [exact Hbrand|exact Hpurity].
Defined.

(** The same upstream at two clock readings: two reports, one text around
    the two timestamps. *)
Lemma report_differs_only_in_timestamp_witness :
  same_upstream Sample.healthy Sample.healthy_later
  ∧ configured Sample.healthy
  ∧ configured Sample.healthy_later
  ∧ ∃ tail,
      attempts (run_cycle Sample.healthy).1
      = [Js.LF +:+ "🕒 Gold Prices Update (" +:+ "11/2/2026, 10:00:00 AM" +:+ tail]
      ∧ attempts (run_cycle Sample.healthy_later).1
        = [Js.LF +:+ "🕒 Gold Prices Update (" +:+ "11/2/2026, 10:10:00 AM" +:+ tail].
Proof.
  assert (Hsame : same_upstream Sample.healthy Sample.healthy_later)
    by (repeat split; reflexivity).
  assert (Hc1 : configured Sample.healthy)
    by (exists "-1001"; split; [reflexivity|discriminate]).
  assert (Hc2 : configured Sample.healthy_later)
    by (exists "-1002"; split; [reflexivity|discriminate]).
  repeat (split; [assumption|]).
  destruct (report_differs_only_in_timestamp _ _ Hsame Hc1 Hc2)
    as [(price & w & d & b & tail & _ & _ & _ & _ & Hrep & H1 & H2) | Heq].
  - exists tail. rewrite H1, H2, !Hrep. split; reflexivity.
  - vm_compute in Heq. discriminate Heq.
Defined.

(** A kept record without a buy price brings the whole BTMC fetch down. *)
Lemma btmc_unresolved_price_fails_witness :
  In Sample.unresolved_item [Sample.third_slot_item; Sample.unresolved_item]
  ∧ keep_item Sample.unresolved_item = true
  ∧ (∀ i, 1 ≤ i ≤ 4 → slot_empty FBuyPrice i Sample.unresolved_item)
  ∧ Sample.unresolved_item !! slot_key FBuyPrice 5 = None
  ∧ btmc_outcome
      (Sample.with_btmc [Sample.third_slot_item; Sample.unresolved_item])
    = inl (GoldPriceError "Failed to fetch BTMC prices" "BTMC").
Proof.
  assert (Hin : In Sample.unresolved_item
                  [Sample.third_slot_item; Sample.unresolved_item])
    by (right; left; reflexivity).
  assert (Hkeep : keep_item Sample.unresolved_item = true) by reflexivity.
  assert (Hempty : ∀ i, 1 ≤ i ≤ 4 → slot_empty FBuyPrice i Sample.unresolved_item).
  { intros i Hi.
    assert (i = 1 ∨ i = 2 ∨ i = 3 ∨ i = 4) as [-> | [-> | [-> | ->]]] by lia;
      left; reflexivity. }
  assert (Hfifth : Sample.unresolved_item !! slot_key FBuyPrice 5 = None)
    by reflexivity.
  repeat (split; [assumption|]).
  exact (btmc_unresolved_price_fails
           (Sample.with_btmc [Sample.third_slot_item; Sample.unresolved_item])
           (Sample.btmc_payload [Sample.third_slot_item; Sample.unresolved_item])
           [Sample.third_slot_item; Sample.unresolved_item]
           Sample.unresolved_item FBuyPrice
           eq_refl eq_refl Hin Hkeep (or_introl eq_refl) Hempty Hfifth).
Defined.

(** The second table of the sample's first collection is never read, and
    a payload without the second collection fails. *)
Lemma doji_first_tables_only_witness :
  doji_response Sample.healthy = inr "<GoldList/>"
  ∧ xml_parse Sample.healthy "<GoldList/>" = inr Sample.doji_payload
  ∧ doji_outcome Sample.healthy
    = after_catch "Failed to fetch DOJI prices" "DOJI"
        (doji_prices
           (first_tables
              (Sample.table [ Sample.row "DOJI HN" "8900000" "9000000";
                              Sample.row "AVPL" "8800000" "8950000" ])
              (Sample.table [ Sample.row "Nhẫn 9999" "8700000" "8850000";
                              Sample.row "Nữ trang 18k" "6000000" "6500000" ])))
  ∧ doji_outcome (Sample.with_doji Sample.doji_payload_no_jewelry)
    = inl (GoldPriceError "Failed to fetch DOJI prices" "DOJI").
Proof.
  split; [reflexivity|]. split; [reflexivity|]. split.
  - exact (proj2 (proj1 (doji_first_tables_only Sample.healthy "<GoldList/>"
                           Sample.doji_payload eq_refl eq_refl)
                    _ _ _ _ _ eq_refl eq_refl eq_refl)).
  - exact (proj1 (proj2 (doji_first_tables_only
                           (Sample.with_doji Sample.doji_payload_no_jewelry)
                           "<GoldList/>" Sample.doji_payload_no_jewelry
                           eq_refl eq_refl))
             _ eq_refl (or_intror (or_introl eq_refl))).
Defined.

(** ** The further properties at work *)

Lemma formatNumber_idempotent_on_digits_witness :
  all_digits "1234567" = true
  ∧ ∃ text, formatNumber (VStr "1234567") = inr text
            ∧ formatNumber (VStr text) = inr text.
Proof.
  split; [reflexivity|].
  exact (formatNumber_idempotent_on_digits "1234567" eq_refl).
Defined.

Lemma formatNumber_negative_integer_witness :
  all_digits "1234567" = true
  ∧ formatNumber (VStr "-1234567") = inr "-1,234,567".
Proof.
  split; [reflexivity|].
  exact (formatNumber_negative_integer "1234567" eq_refl).
Defined.

Lemma formatNumber_separator_count_witness :
  all_digits "8900000" = true
  ∧ ∃ text, formatNumber (VStr "8900000") = inr text
            ∧ String.length text = 7 + (7 - 1) / 3.
Proof.
  split; [reflexivity|].
  exact (formatNumber_separator_count "8900000" eq_refl).
Defined.

Lemma formatNumber_passes_text_through_witness :
  no_digits "N/A" = true ∧ formatNumber (VStr "N/A") = inr "N/A".
Proof.
  split; [reflexivity|].
  exact (formatNumber_passes_text_through "N/A" eq_refl).
Defined.

(** A document the parser rejects. *)
Lemma doji_failures_witness :
  doji_response Sample.doji_bad_xml = inr "<GoldList>"
  ∧ xml_parse Sample.doji_bad_xml "<GoldList>" = inl (Error "Unclosed root tag")
  ∧ doji_outcome Sample.doji_bad_xml
    = inl (GoldPriceError "Failed to fetch DOJI prices" "DOJI").
Proof.
  split; [reflexivity|]. split; [reflexivity|].
  exact (proj2 (doji_failures Sample.doji_bad_xml)
           "<GoldList>" "Unclosed root tag" eq_refl eq_refl).
Defined.

(** A DOJI payload with other brands and other purities only. *)
Lemma doji_no_row_kept_witness :
  (∀ row, In row [Sample.row "AVPL" "8800000" "8950000"] →
          row_named row ∧ ¬ name_contains row "DOJI")
  ∧ (∀ row, In row [Sample.row "Nữ trang 18k" "6000000" "6500000"] →
            row_named row ∧ ¬ name_contains row "24k"
            ∧ ¬ name_contains row "9999")
  ∧ doji_outcome Sample.doji_nothing_kept = inr Js.LF.
Proof.
  assert (Hno : ∀ name buy sell needle,
             Js.includes name needle = false →
             ¬ name_contains (Sample.row name buy sell) needle).
  { intros name buy sell needle Hf (a & name' & Ha & Hn & Hin).
    injection Ha as <-. injection Hn as <-. congruence. }
  assert (Hnamed : ∀ name buy sell, row_named (Sample.row name buy sell))
    by (intros; eexists _, _; split; reflexivity).
  assert (Hb : ∀ row, In row [Sample.row "AVPL" "8800000" "8950000"] →
                      row_named row ∧ ¬ name_contains row "DOJI").
  { intros row [<-|[]]. split; [apply Hnamed|apply Hno; reflexivity]. }
  assert (Hp : ∀ row, In row [Sample.row "Nữ trang 18k" "6000000" "6500000"] →
                      row_named row ∧ ¬ name_contains row "24k"
                      ∧ ¬ name_contains row "9999").
  { intros row [<-|[]].
    split; [apply Hnamed|split; apply Hno; reflexivity]. }
  split; [exact Hb|]. split; [exact Hp|].
  exact (doji_no_row_kept Sample.doji_nothing_kept "<GoldList/>"
           Sample.doji_other_brands _ _ _
           eq_refl eq_refl eq_refl eq_refl eq_refl Hb Hp).
Defined.

(** A first table without rows: the payload is not well-formed, and the
    fetch fails. *)
Lemma doji_succeeds_exactly_when_well_formed_witness :
  ¬ doji_well_formed Sample.doji_payload_rowless
  ∧ doji_outcome (Sample.with_doji Sample.doji_payload_rowless)
    = inl (GoldPriceError "Failed to fetch DOJI prices" "DOJI").
Proof.
  assert (Hnot : ¬ doji_well_formed Sample.doji_payload_rowless).
  { intros (gl & rows1 & rows2 & Hgl & H1 & _).
    injection Hgl as <-. discriminate H1. }
  split; [exact Hnot|].
  exact (proj2 (doji_succeeds_exactly_when_well_formed
                  (Sample.with_doji Sample.doji_payload_rowless)
                  "<GoldList/>" Sample.doji_payload_rowless eq_refl eq_refl)
           Hnot).
Defined.





(** BTMC answers 500 while the other two sources answer. *)
Lemma btmc_server_error_is_reported_witness :
  world_price_ok Sample.btmc_down
  ∧ (∃ dojiPrices, doji_outcome Sample.btmc_down = inr dojiPrices)
  ∧ telegram_works Sample.btmc_down
  ∧ fetched (run_cycle Sample.btmc_down).1 = [WorldGold; DOJI; BTMC]
  ∧ delivered (run_cycle Sample.btmc_down).1
    = ["⚠️ Error fetching BTMC prices: API Error: 500 - Internal Server Error"]
  ∧ (run_cycle Sample.btmc_down).2 = inr tt.
Proof.
  assert (Hw : world_price_ok Sample.btmc_down)
    by (exists (VStr "2650.37"), "2,650.37"; split; reflexivity).
  assert (Hd : ∃ dojiPrices, doji_outcome Sample.btmc_down = inr dojiPrices)
    by (eexists; vm_compute; reflexivity).
  assert (Ht : telegram_works Sample.btmc_down).
  { exists "-1001". split; [reflexivity|]. split; [discriminate|].
    intros text. reflexivity. }
  split; [exact Hw|]. split; [exact Hd|]. split; [exact Ht|].
  exact (btmc_server_error_is_reported Sample.btmc_down
           {| status := 500%Z; statusText := "Internal Server Error" |}
           Hw Hd eq_refl Ht).
Defined.
